(** * Replay map view ([pages/Replay/Deck.tsx]): layers, tooltip and click handling

    A shallow embedding of the [Deck] component of the replay page and of the
    interfaces of [components/type.ts] it consumes, followed by the properties
    of the layer list, of the bridge colouring, of the tooltip and of the click
    handler.

    JS numbers are IEEE-754 doubles: they are modelled by Rocq's primitive
    binary64 floats, so [<] and [>] are the comparisons the engine performs
    (false on NaN). JS objects used as dictionaries are [gmap string _]. *)

From Stdlib Require Import Floats ZArith Strings.String Strings.Ascii List Bool Lia.
From stdpp Require Import base option list strings gmap.

Import ListNotations.
Local Open Scope string_scope.
Local Open Scope list_scope.

(** ** Numbers *)

Definition number : Type := float.

Module Number.

(** The comparisons [x < y], [x > y], [x <= y] and [x >= y] on JS numbers. *)
Definition lt (x y : number) : bool := PrimFloat.ltb x y.
Definition gt (x y : number) : bool := PrimFloat.ltb y x.
Definition le (x y : number) : bool := PrimFloat.leb x y.
Definition ge (x y : number) : bool := PrimFloat.leb y x.

End Number.

(** ** Values, errors and the engine's built-ins *)

(** [string | number], the value type of the profile and status
    dictionaries of [components/type.ts]. *)
Inductive PropValue :=
| PString (s : string)
| PNumber (n : number).

(** What a property read can give: a dictionary value, or a member that the
    object inherits from its prototype (a built-in function or object, named
    by its path, as [Object] or [Object.prototype.toString]). *)
Inductive JsValue :=
| Value (v : PropValue)
| Builtin (path : string).

Inductive JsError :=
| TypeError (message : string).

Inductive result (A : Type) :=
| Ok (a : A)
| Throw (e : JsError).
Arguments Ok {A} a.
Arguments Throw {A} e.

(** The built-ins of the JS engine the component calls. The development is
    parametric in them: a theorem holds for whatever the engine computes. *)
Class Runtime := {
  (** [String.prototype.toLowerCase] *)
  toLowerCase : string -> string;
  (** [ToString] of a number, as a template literal applies it *)
  numberToString : number -> string;
  (** [s[key]] on a primitive string [s], own or inherited; [None] is
      [undefined] *)
  stringProperty : string -> string -> option JsValue;
  (** [Object.prototype[key]], what a plain object inherits under a name *)
  objectPrototype : string -> option JsValue
}.

(** [s.includes(needle)] *)
Fixpoint includes (needle s : string) : bool :=
  String.prefix needle s ||
  match s with
  | EmptyString => false
  | String _ rest => includes needle rest
  end.

(** Truthiness of a string that may be [undefined]. *)
Definition truthy (v : option string) : bool :=
  match v with
  | Some s => negb (String.eqb s "")
  | None => false
  end.

(** [a ?? b] *)
Definition nullish {A : Type} (a : option A) (b : A) : A :=
  match a with
  | Some x => x
  | None => b
  end.
Infix "??" := nullish (at level 45, left associativity).

(** [`${v}`] for a string that may be [undefined]. *)
Definition template (v : option string) : string :=
  match v with
  | Some s => s
  | None => "undefined"
  end.

(** ** State and exceptions

    A computation over a state [S] that either returns or throws; the state
    reached when it throws is kept, as a [try] block keeps its assignments. *)

Definition Exec (S A : Type) : Type := S -> S * result A.

Definition ret {S A : Type} (a : A) : Exec S A := fun s => (s, Ok a).

Definition bind {S A B : Type} (m : Exec S A) (f : A -> Exec S B) : Exec S B :=
  fun s =>
    match m s with
    | (s', Ok a) => f a s'
    | (s', Throw e) => (s', Throw e)
    end.

Definition throw {S A : Type} (e : JsError) : Exec S A := fun s => (s, Throw e).

Definition put {S : Type} (s : S) : Exec S unit := fun _ => (s, Ok tt).

Definition modify {S : Type} (f : S -> S) : Exec S unit := fun s => (f s, Ok tt).

Definition liftResult {S A : Type} (r : result A) : Exec S A := fun s => (s, r).

Declare Scope exec_scope.
Delimit Scope exec_scope with exec.
Notation "'let*' x := m 'in' k" := (bind m (fun x => k))
  (at level 10, x name, m at level 100, k at level 200) : exec_scope.

(** [xs.map(f)] for a callback with effects: left to right, stopping at the
    first throw. *)
Fixpoint mapM {S A B : Type} (f : A -> Exec S B) (xs : list A) : Exec S (list B) :=
  match xs with
  | [] => ret []
  | x :: rest =>
      (let* y := f x in
       let* ys := mapM f rest in
       ret (y :: ys))%exec
  end.

(** ** The data consumed ([components/type.ts]) *)

(** [profile?: { [key: string]: string | number }]. The declared type has the
    object and [undefined]; data decoded from JSON can also carry [null], on
    which a property read throws. *)
Inductive Profile :=
| ProfileUndefined
| ProfileNull
| ProfileObject (fields : gmap string PropValue).

(** [status: { [key: string]: string | number } | string] *)
Inductive Status :=
| StatusObject (fields : gmap string PropValue)
| StatusString (s : string).

Module Agent.
(** [interface Agent extends AgentProfile, AgentStatus] *)
Record Agent := {
  id : number;
  name : string;
  profile : Profile;
  day : number;
  t : number;
  lng : number;
  lat : number;
  parent_id : number;
  action : string;
  status : Status
}.
End Agent.

Module LngLat.
Record LngLat := { lng : number; lat : number }.
End LngLat.

Module BridgeOverlay.
Record LastUpdate := {
  day : option number;
  t : option number;
  step : option number
}.

Record BridgeOverlay := {
  bridge_id : string;
  name : option string;
  priority : option string;
  risk : option string;
  status : option string;
  work_order_status : option string;
  action : option string;
  due_date : option string;
  days_overdue : option number;
  lng : option number;
  lat : option number;
  last_update : option LastUpdate
}.
End BridgeOverlay.

(** The observable store read by the component. [agents] is a
    [Map<number, Agent>], kept in insertion order. *)
Module Store.
Record Store := {
  agents : list (number * Agent.Agent);
  bridgeOverlays : option (list BridgeOverlay.BridgeOverlay);
  heatmapKeyInStatus : option string;
  mapCenter : LngLat.LngLat
}.
End Store.

(** ** Layers (deck.gl) *)

Definition Position : Type := number * number.
Definition Color : Type := list number.

Module IconDatum.
Record IconDatum := { id : number; coordinate : Position; avatarUrl : string }.
End IconDatum.

Module TextDatum.
Record TextDatum := { id : number; position : Position; text : string }.
End TextDatum.

Module PointDatum.
Record PointDatum := { id : number; position : Position; radius : number; color : Color }.
End PointDatum.

Module HeatDatum.
Record HeatDatum := { position : Position; weight : JsValue }.
End HeatDatum.

Module IconLayer.
Record Icon := { url : string; width : number; height : number; anchorX : number; anchorY : number }.
Record IconLayer (D : Type) := {
  id : string;
  data : list D;
  pickable : bool;
  getIcon : D -> Icon;
  getSize : number;
  getPosition : D -> Position
}.
Arguments id {D}.
Arguments data {D}.
Arguments pickable {D}.
Arguments getIcon {D}.
Arguments getSize {D}.
Arguments getPosition {D}.
End IconLayer.

Module TextLayer.
(** [P] is the type of a position: [[number, number]] for agents, and
    entries that may be [undefined] for bridges. Styling props are left
    out. [pickable] defaults to [false]. *)
Record TextLayer (D P : Type) := {
  id : string;
  data : list D;
  pickable : bool;
  getText : D -> string;
  getPosition : D -> P;
  getSize : number
}.
Arguments id {D P}.
Arguments data {D P}.
Arguments pickable {D P}.
Arguments getText {D P}.
Arguments getPosition {D P}.
Arguments getSize {D P}.
End TextLayer.

Module ScatterplotLayer.
Record ScatterplotLayer (D P : Type) := {
  id : string;
  data : list D;
  pickable : bool;
  radiusScale : number;
  radiusMinPixels : number;
  radiusMaxPixels : number;
  getPosition : D -> P;
  getRadius : D -> number;
  getFillColor : D -> Color
}.
Arguments id {D P}.
Arguments data {D P}.
Arguments pickable {D P}.
Arguments radiusScale {D P}.
Arguments radiusMinPixels {D P}.
Arguments radiusMaxPixels {D P}.
Arguments getPosition {D P}.
Arguments getRadius {D P}.
Arguments getFillColor {D P}.
End ScatterplotLayer.

Module HeatmapLayer.
Record HeatmapLayer (D : Type) := {
  id : string;
  data : list D;
  getPosition : D -> Position;
  getWeight : D -> JsValue;
  threshold : number;
  radiusPixels : number;
  intensity : number
}.
Arguments id {D}.
Arguments data {D}.
Arguments getPosition {D}.
Arguments getWeight {D}.
Arguments threshold {D}.
Arguments radiusPixels {D}.
Arguments intensity {D}.
End HeatmapLayer.

Module Feature.
(** A GeoJSON feature of the area-of-interest layer. *)
Record Properties := { name : option string; land_use : option string }.
Record Feature := { id : option PropValue; properties : option Properties }.
End Feature.

Module GeoJsonLayer.
Record GeoJsonLayer := { id : string; pickable : bool }.
End GeoJsonLayer.

Definition MaybePosition : Type := option number * option number.

(** The layers the component builds, one constructor per [new ...Layer]
    expression of the source; [Aoi] is the layer of the commented-out block,
    which only the tooltip still knows. *)
Inductive Layer :=
| Icons (l : IconLayer.IconLayer IconDatum.IconDatum)
| Names (l : TextLayer.TextLayer TextDatum.TextDatum Position)
| Points (l : ScatterplotLayer.ScatterplotLayer PointDatum.PointDatum Position)
| Heatmap (l : HeatmapLayer.HeatmapLayer HeatDatum.HeatDatum)
| BridgeMarkers (l : ScatterplotLayer.ScatterplotLayer BridgeOverlay.BridgeOverlay MaybePosition)
| BridgeLabels (l : TextLayer.TextLayer BridgeOverlay.BridgeOverlay MaybePosition)
| Aoi (l : GeoJsonLayer.GeoJsonLayer).

(** [layer.id] *)
Definition layerId (layer : Layer) : string :=
  match layer with
  | Icons l => IconLayer.id l
  | Names l => TextLayer.id l
  | Points l => ScatterplotLayer.id l
  | Heatmap l => HeatmapLayer.id l
  | BridgeMarkers l => ScatterplotLayer.id l
  | BridgeLabels l => TextLayer.id l
  | Aoi l => GeoJsonLayer.id l
  end.

(** An object of a layer's data, as picking hands it to the callbacks. *)
Inductive Datum :=
| DIcon (d : IconDatum.IconDatum)
| DText (d : TextDatum.TextDatum)
| DPoint (d : PointDatum.PointDatum)
| DHeat (d : HeatDatum.HeatDatum)
| DBridge (b : BridgeOverlay.BridgeOverlay)
| DFeature (f : Feature.Feature).

(** ** Callback arguments and effects *)

Module PickingInfo.
(** The [info] deck.gl passes to [onHover], [onClick] and [getTooltip]. *)
Record PickingInfo := {
  layer : option Layer;
  object : option Datum;
  coordinate : option Position
}.
End PickingInfo.

Module ClickEvent.
Record ClickEvent := { leftButton : bool; middleButton : bool; rightButton : bool }.
End ClickEvent.

(** What the component does to the world outside of its return value. *)
Inductive Event :=
| ConsoleError (e : JsError)
| ConsoleLog (info : PickingInfo.PickingInfo) (event : ClickEvent.ClickEvent)
| SetClickedAgentID (id : option PropValue)
| SetCurZoom (zoom : number)
| SetHovering (hovering : bool)
| PreventDefault.

(** The events that write to the store or to the component's own state. *)
Definition isMutation (ev : Event) : bool :=
  match ev with
  | SetClickedAgentID _ | SetCurZoom _ | SetHovering _ => true
  | ConsoleError _ | ConsoleLog _ _ | PreventDefault => false
  end.

Definition emit (ev : Event) : Exec (list Event) unit :=
  modify (fun events => events ++ [ev]).

Module Tooltip.
Record Tooltip := { html : string; style : list (string * string) }.
End Tooltip.

Module ViewState.
Record ViewState := {
  longitude : number;
  latitude : number;
  zoom : number;
  pitch : number;
  bearing : number;
  transitionDuration : number
}.
End ViewState.

(** What a render hands to [<DeckGL>]: the layers, the initial view state and
    the cursor [getCursor] answers with. The other callbacks are the
    definitions [onViewStateChange], [onHover], [getTooltip] and [onClick]
    below. *)
Module Rendered.
Record Rendered := {
  layers : list Layer;
  initialViewState : ViewState.ViewState;
  cursor : string
}.
End Rendered.

(** ** Constants of [Deck.tsx] *)

Definition LAND_USE_NAME : list (string * string) := [
  ("LAND_USE_TYPE_UNSPECIFIED", "未指定");
  ("LAND_USE_TYPE_COMMERCIAL", "商服用地");
  ("LAND_USE_TYPE_INDUSTRIAL", "工矿仓储用地");
  ("LAND_USE_TYPE_RESIDENTIAL", "住宅用地");
  ("LAND_USE_TYPE_PUBLIC", "公共管理与公共服务用地");
  ("LAND_USE_TYPE_TRANSPORTATION", "交通运输用地");
  ("LAND_USE_TYPE_OTHER", "其他土地")
].

(** [map.get(key)] on a [Map<string, string>] given by its entries; a key
    that is [undefined] is not a key of the map. *)
Fixpoint mapGet (entries : list (string * string)) (key : option string) : option string :=
  match entries, key with
  | (k, v) :: rest, Some wanted =>
      if String.eqb k wanted then Some v else mapGet rest key
  | _, _ => None
  end.

Module BRIDGE_COLORS.
Definition critical : Color := [220; 53; 69; 220]%float.
Definition inProgress : Color := [255; 165; 0; 220]%float.
Definition default : Color := [52; 152; 219; 200]%float.
End BRIDGE_COLORS.

(** [v === literal] for a string that may be [undefined]. *)
Definition strictEq (v : option string) (literal : string) : bool :=
  match v with
  | Some s => String.eqb s literal
  | None => false
  end.

Section Component.

Context {rt : Runtime}.

Definition bridgeStatusColor (priority workOrderStatus : option string) : Color :=
  let normalizedPriority := option_map toLowerCase priority in
  let normalizedStatus := option_map toLowerCase workOrderStatus in
  if match normalizedStatus with
     | Some s => negb (String.eqb s "") && includes "progress" s
     | None => false
     end
  then
    BRIDGE_COLORS.inProgress
  else if strictEq normalizedPriority "critical" then
    BRIDGE_COLORS.critical
  else
    BRIDGE_COLORS.default.

(** *** The agent layers *)

(** [profile.key]: a read on [undefined] or [null] throws. *)
Definition getProperty (profile : Profile) (key : string) : result (option PropValue) :=
  match profile with
  | ProfileUndefined =>
      Throw (TypeError ("Cannot read properties of undefined (reading '" +:+ key +:+ "')"))
  | ProfileNull =>
      Throw (TypeError ("Cannot read properties of null (reading '" +:+ key +:+ "')"))
  | ProfileObject fields => Ok (fields !! key)
  end.

(** [v === literal] for a dictionary value that may be [undefined]. *)
Definition isString (v : option PropValue) (literal : string) : bool :=
  match v with
  | Some (PString s) => String.eqb s literal
  | _ => false
  end.

(** [typeof v === 'number'], with the number when it holds. *)
Definition asNumber (v : option PropValue) : option number :=
  match v with
  | Some (PNumber n) => Some n
  | _ => None
  end.

(** The body of the [try] block of the icon callback, over the variable
    [avatarUrl]. *)
Definition selectAvatar (profile : Profile) : Exec string unit :=
  match profile with
  | ProfileUndefined => ret tt
  | _ =>
      (let* gender := liftResult (getProperty profile "gender") in
       let* age := liftResult (getProperty profile "age") in
       match isString gender "male", asNumber age with
       | true, Some age =>
           if Number.lt age 18%float then put "/icon/boy1.png"
           else if Number.lt age 65%float then put "/icon/boy2.png"
           else put "/icon/boy3.png"
       | _, _ =>
           match isString gender "female", asNumber age with
           | true, Some age =>
               if Number.lt age 18%float then put "/icon/girl1.png"
               else if Number.lt age 65%float then put "/icon/girl2.png"
               else put "/icon/girl3.png"
           | _, _ => ret tt
           end
       end)%exec
  end.

(** The callback of [agentList.map] that builds the icon layer's data:
    [avatarUrl] starts as the default icon, the [try] block may assign it, and
    [catch] logs what was thrown. *)
Definition iconDatum (a : Agent.Agent) : Exec (list Event) IconDatum.IconDatum :=
  fun events =>
    let profile := Agent.profile a in
    let avatarUrl := "/icon/agent.png" in
    let '(avatarUrl, completion) := selectAvatar profile avatarUrl in
    let events :=
      match completion with
      | Ok _ => events
      | Throw e => events ++ [ConsoleError e]
      end in
    (events,
     Ok {| IconDatum.id := Agent.id a;
           IconDatum.coordinate := (Agent.lng a, Agent.lat a);
           IconDatum.avatarUrl := avatarUrl |}).

Definition iconLayer (data : list IconDatum.IconDatum) : Layer :=
  Icons {|
    IconLayer.id := "icon";
    IconLayer.data := data;
    IconLayer.pickable := true;
    IconLayer.getIcon := fun d =>
      {| IconLayer.url := IconDatum.avatarUrl d;
         IconLayer.width := 128; IconLayer.height := 128;
         IconLayer.anchorX := 64; IconLayer.anchorY := 64 |}%float;
    IconLayer.getSize := 30%float;
    IconLayer.getPosition := IconDatum.coordinate
  |}.

(** [agentList.map(...).filter(d => d !== undefined)]: an agent whose name
    is empty maps to [undefined] and is dropped. *)
Definition textData (agentList : list Agent.Agent) : list TextDatum.TextDatum :=
  omap (fun a =>
          if String.eqb (Agent.name a) "" then None
          else Some {| TextDatum.id := Agent.id a;
                       TextDatum.position := (Agent.lng a, Agent.lat a);
                       TextDatum.text := Agent.name a |})
       agentList.

Definition textLayer (agentList : list Agent.Agent) : Layer :=
  Names {|
    TextLayer.id := "text";
    TextLayer.data := textData agentList;
    TextLayer.pickable := false;
    TextLayer.getText := TextDatum.text;
    TextLayer.getPosition := TextDatum.position;
    TextLayer.getSize := 16%float
  |}.

Definition pointLayer (agentList : list Agent.Agent) : Layer :=
  Points {|
    ScatterplotLayer.id := "point";
    ScatterplotLayer.data :=
      map (fun a =>
             {| PointDatum.id := Agent.id a;
                PointDatum.position := (Agent.lng a, Agent.lat a);
                PointDatum.radius := 10%float;
                PointDatum.color := [22; 119; 255]%float |})
          agentList;
    ScatterplotLayer.pickable := true;
    ScatterplotLayer.radiusScale := 20%float;
    ScatterplotLayer.radiusMinPixels := 1%float;
    ScatterplotLayer.radiusMaxPixels := 100%float;
    ScatterplotLayer.getPosition := PointDatum.position;
    ScatterplotLayer.getRadius := PointDatum.radius;
    ScatterplotLayer.getFillColor := PointDatum.color
  |}.

(** The [if (curZoom > 10) ... else ...] block. *)
Definition agentLayers (curZoom : number) (agentList : list Agent.Agent)
  : Exec (list Event) (list Layer) :=
  if Number.gt curZoom 10%float then
    (let* data := mapM iconDatum agentList in
     ret [iconLayer data; textLayer agentList])%exec
  else
    ret [pointLayer agentList].

(** *** The heatmap layer *)

(** [a.status[key]]: the read finds an own property of the status first and
    walks the prototype chain otherwise. *)
Definition statusField (status : Status) (key : string) : option JsValue :=
  match status with
  | StatusObject fields =>
      match fields !! key with
      | Some v => Some (Value v)
      | None => objectPrototype key
      end
  | StatusString s => stringProperty s key
  end.

Definition heatmapLayer (key : string) (agentList : list Agent.Agent) : Layer :=
  Heatmap {|
    HeatmapLayer.id := "heatmap";
    HeatmapLayer.data :=
      map (fun a =>
             {| HeatDatum.position := (Agent.lng a, Agent.lat a);
                HeatDatum.weight :=
                  statusField (Agent.status a) key ?? Value (PNumber 0%float) |})
          agentList;
    HeatmapLayer.getPosition := HeatDatum.position;
    HeatmapLayer.getWeight := HeatDatum.weight;
    (* 0.05, as a double *)
    HeatmapLayer.threshold := 0x1.999999999999ap-5%float;
    HeatmapLayer.radiusPixels := 100%float;
    HeatmapLayer.intensity := 1%float
  |}.

(** *** The bridge layers *)

(** [b.lng !== undefined && b.lat !== undefined] *)
Definition hasCoordinates (b : BridgeOverlay.BridgeOverlay) : bool :=
  match BridgeOverlay.lng b, BridgeOverlay.lat b with
  | Some _, Some _ => true
  | _, _ => false
  end.

Definition bridgePosition (d : BridgeOverlay.BridgeOverlay) : MaybePosition :=
  (BridgeOverlay.lng d, BridgeOverlay.lat d).

(** [getRadius] of the ['bridge-status'] layer *)
Definition bridgeRadius (d : BridgeOverlay.BridgeOverlay) : number :=
  if strictEq (option_map toLowerCase (BridgeOverlay.priority d)) "critical"
  then 180%float else 140%float.

(** [getFillColor] of the ['bridge-status'] layer *)
Definition bridgeFillColor (d : BridgeOverlay.BridgeOverlay) : Color :=
  bridgeStatusColor (BridgeOverlay.priority d) (BridgeOverlay.work_order_status d).

(** [getText] of the ['bridge-status-label'] layer: [d.name ?? d.bridge_id] *)
Definition bridgeLabelText (d : BridgeOverlay.BridgeOverlay) : string :=
  BridgeOverlay.name d ?? BridgeOverlay.bridge_id d.

Definition bridgeLayer (bridgePoints : list BridgeOverlay.BridgeOverlay) : Layer :=
  BridgeMarkers {|
    ScatterplotLayer.id := "bridge-status";
    ScatterplotLayer.data := bridgePoints;
    ScatterplotLayer.pickable := true;
    ScatterplotLayer.radiusScale := 20%float;
    ScatterplotLayer.radiusMinPixels := 6%float;
    ScatterplotLayer.radiusMaxPixels := 200%float;
    ScatterplotLayer.getPosition := bridgePosition;
    ScatterplotLayer.getRadius := bridgeRadius;
    ScatterplotLayer.getFillColor := bridgeFillColor
  |}.

Definition bridgeLabelLayer (bridgePoints : list BridgeOverlay.BridgeOverlay) : Layer :=
  BridgeLabels {|
    TextLayer.id := "bridge-status-label";
    TextLayer.data := bridgePoints;
    TextLayer.pickable := true;
    TextLayer.getText := bridgeLabelText;
    TextLayer.getPosition := bridgePosition;
    TextLayer.getSize := 12%float
  |}.

(** *** The component *)

(** [getCursor] *)
Definition getCursor (hovering : bool) : string :=
  if hovering then "pointer" else "grab".

Definition withHeatmap (key : option string) (agentList : list Agent.Agent)
  (layers : list Layer) : list Layer :=
  match key with
  | Some key => heatmapLayer key agentList :: layers
  | None => layers
  end.

Definition withBridges (bridgeOverlays : list BridgeOverlay.BridgeOverlay)
  (layers : list Layer) : list Layer :=
  let bridgePoints := List.filter hasCoordinates bridgeOverlays in
  if (0 <? length bridgePoints)%nat then
    layers ++ [bridgeLayer bridgePoints; bridgeLabelLayer bridgePoints]
  else
    layers.

(** One render of [Deck], for the current values of the [curZoom] and
    [hovering] state variables. *)
Definition Deck (store : Store.Store) (curZoom : number) (hovering : bool)
  : Exec (list Event) Rendered.Rendered :=
  let bridgeOverlays := Store.bridgeOverlays store ?? [] in
  let agentList := map snd (Store.agents store) in
  (let* layers := agentLayers curZoom agentList in
   let layers := withHeatmap (Store.heatmapKeyInStatus store) agentList layers in
   let layers := withBridges bridgeOverlays layers in
   let mapCenter := Store.mapCenter store in
   ret {| Rendered.layers := layers;
          Rendered.initialViewState :=
            {| ViewState.longitude := LngLat.lng mapCenter;
               ViewState.latitude := LngLat.lat mapCenter;
               ViewState.zoom := 10.5;
               ViewState.pitch := 0;
               ViewState.bearing := 0;
               ViewState.transitionDuration := 2000 |}%float;
          Rendered.cursor := getCursor hovering |})%exec.

(** *** The callbacks *)

Definition onContextMenu : Exec (list Event) unit := emit PreventDefault.

Definition onViewStateChange (zoom : number) : Exec (list Event) unit :=
  emit (SetCurZoom zoom).

(** [Boolean(object)] *)
Definition isObject (object : option Datum) : bool :=
  match object with
  | Some _ => true
  | None => false
  end.

Definition onHover (info : PickingInfo.PickingInfo) : Exec (list Event) unit :=
  emit (SetHovering (isObject (PickingInfo.object info))).

(** Property reads on a picked object. An object has the properties of its
    data type; any other read is [undefined]. *)
Definition fromBridge {A : Type} (field : BridgeOverlay.BridgeOverlay -> option A)
  (object : Datum) : option A :=
  match object with
  | DBridge b => field b
  | _ => None
  end.

Definition objectProperties (object : Datum) : option Feature.Properties :=
  match object with
  | DFeature f => Feature.properties f
  | _ => None
  end.

(** [object.id] *)
Definition objectId (object : Datum) : option PropValue :=
  match object with
  | DIcon d => Some (PNumber (IconDatum.id d))
  | DText d => Some (PNumber (TextDatum.id d))
  | DPoint d => Some (PNumber (PointDatum.id d))
  | DFeature f => Feature.id f
  | DHeat _ | DBridge _ => None
  end.

(** [`${v}`] for a dictionary value. *)
Definition templateValue (v : PropValue) : string :=
  match v with
  | PString s => s
  | PNumber n => numberToString n
  end.

(** [a ?? b] where [b] may be [undefined] too. *)
Definition orElse {A : Type} (a b : option A) : option A :=
  match a with
  | Some x => Some x
  | None => b
  end.

Definition bridgeTooltip (info : Datum) : Tooltip.Tooltip :=
  let header := orElse (fromBridge BridgeOverlay.name info)
                       (fromBridge (fun b => Some (BridgeOverlay.bridge_id b)) info) in
  let statusLine :=
    if truthy (fromBridge BridgeOverlay.work_order_status info) then
      (fromBridge BridgeOverlay.status info ?? "work_order") +:+ " - "
        +:+ template (fromBridge BridgeOverlay.work_order_status info)
    else
      fromBridge BridgeOverlay.status info ?? "work_order" in
  let due :=
    match fromBridge BridgeOverlay.days_overdue info with
    | Some days_overdue => "Overdue: " +:+ numberToString days_overdue +:+ " days"
    | None =>
        if truthy (fromBridge BridgeOverlay.due_date info) then
          "Due: " +:+ template (fromBridge BridgeOverlay.due_date info)
        else ""
    end in
  let risk :=
    if truthy (fromBridge BridgeOverlay.priority info) then
      "Priority: " +:+ template (fromBridge BridgeOverlay.priority info)
    else "" in
  {| Tooltip.html :=
       "<b>" +:+ template header +:+ "</b><br/>" +:+ statusLine +:+ "<br/>" +:+ risk
         +:+ "<br/>" +:+ (fromBridge BridgeOverlay.action info ?? "") +:+ "<br/>" +:+ due;
     Tooltip.style := [("backgroundColor", "rgba(0, 0, 0, 0.75)");
                       ("color", "white");
                       ("padding", "6px 8px")] |}.

Definition aoiTooltip (object : Datum) : option Tooltip.Tooltip :=
  let name := objectProperties object ≫= Feature.name in
  let id := objectId object in
  let landUse := mapGet LAND_USE_NAME (objectProperties object ≫= Feature.land_use) in
  match name, id, landUse with
  | Some name, Some id, Some landUse =>
      Some {| Tooltip.html :=
                "<b>" +:+ name +:+ "</b><br/>ID = " +:+ templateValue id +:+ "<br/>" +:+ landUse;
              Tooltip.style := [("backgroundColor", "rgba(0, 0, 0, 0.8)");
                                ("color", "white")] |}
  | _, _, _ => None
  end.

(** [getTooltip]; [None] is [null], no tooltip. *)
Definition getTooltip (object : option Datum) (layer : option Layer)
  : option Tooltip.Tooltip :=
  match object, layer with
  | Some object, Some layer =>
      if String.eqb (layerId layer) "bridge-status"
         || String.eqb (layerId layer) "bridge-status-label"
      then Some (bridgeTooltip object)
      else if String.eqb (layerId layer) "aoi"
      then aoiTooltip object
      else None
  | _, _ => None
  end.

(** [onClick]: the call of the store's asynchronous [setClickedAgentID] is the
    event [SetClickedAgentID]. *)
Definition onClick (info : PickingInfo.PickingInfo) (event : ClickEvent.ClickEvent)
  : Exec (list Event) unit :=
  (let* _ := emit (ConsoleLog info event) in
   if ClickEvent.leftButton event then
     match PickingInfo.layer info with
     | None => ret tt
     | Some layer =>
         if String.eqb (layerId layer) "icon"
            || String.eqb (layerId layer) "point"
            || String.eqb (layerId layer) "text"
         then
           match PickingInfo.object info with
           | Some object => emit (SetClickedAgentID (objectId object))
           | None =>
               throw (TypeError "Cannot read properties of undefined (reading 'id')")
           end
         else ret tt
     end
   else
     match PickingInfo.coordinate info with
     | Some _ => ret tt
     | None => ret tt
     end)%exec.

End Component.

(** ** A runtime for closed examples

    Exact on ASCII strings and on integer-valued numbers below [10^21], which
    is what the examples of this file use. *)

Module Reference.

Definition lowerChar (c : ascii) : ascii :=
  let n := nat_of_ascii c in
  if (65 <=? n)%nat && (n <=? 90)%nat then ascii_of_nat (n + 32) else c.

Fixpoint lower (s : string) : string :=
  match s with
  | EmptyString => EmptyString
  | String c rest => String (lowerChar c) (lower rest)
  end.

(** The integer a double is, when it is one. *)
Definition integerValue (x : number) : option Z :=
  match Prim2SF x with
  | S754_zero _ => Some 0%Z
  | S754_finite s m e =>
      let magnitude :=
        if (0 <=? e)%Z then Some (Z.pos m * 2 ^ e)%Z
        else if (Z.pos m mod 2 ^ (- e) =? 0)%Z then Some (Z.pos m / 2 ^ (- e))%Z
        else None in
      option_map (fun v => if s then (- v)%Z else v) magnitude
  | _ => None
  end.

Fixpoint decimal (fuel : nat) (n : Z) (acc : string) : string :=
  match fuel with
  | O => acc
  | S fuel =>
      let acc := String (ascii_of_nat (48 + Z.to_nat (n mod 10))) acc in
      if (n <? 10)%Z then acc else decimal fuel (n / 10)%Z acc
  end.

Definition showNumber (x : number) : string :=
  match integerValue x with
  | Some z =>
      if (Z.abs z <? 10 ^ 21)%Z then
        (if (z <? 0)%Z then "-" else "") +:+ decimal 22 (Z.abs z) ""
      else "?"
  | None =>
      match Prim2SF x with
      | S754_nan => "NaN"
      | S754_infinity false => "Infinity"
      | S754_infinity true => "-Infinity"
      | _ => "?"
      end
  end.

Fixpoint digits (s : string) (acc : nat) : option nat :=
  match s with
  | EmptyString => Some acc
  | String c rest =>
      let n := nat_of_ascii c in
      if (48 <=? n)%nat && (n <=? 57)%nat then digits rest (10 * acc + (n - 48)) else None
  end.

(** An array index in its canonical spelling. *)
Definition parseIndex (key : string) : option nat :=
  match key with
  | EmptyString => None
  | String "0" EmptyString => Some 0
  | String "0" _ => None
  | _ => digits key 0
  end.

Definition ofNat (n : nat) : number := PrimFloat.of_uint63 (Uint63.of_Z (Z.of_nat n)).

(** The names [Object.prototype] defines besides [constructor] and
    [__proto__]. *)
Definition objectMethods : list string :=
  ["hasOwnProperty"; "isPrototypeOf"; "propertyIsEnumerable"; "toLocaleString";
   "toString"; "valueOf"; "__defineGetter__"; "__defineSetter__";
   "__lookupGetter__"; "__lookupSetter__"].

(** The methods of [String.prototype] (ECMAScript 2023 with its annex B). *)
Definition stringMethods : list string :=
  ["at"; "charAt"; "charCodeAt"; "codePointAt"; "concat"; "endsWith"; "includes";
   "indexOf"; "isWellFormed"; "lastIndexOf"; "localeCompare"; "match"; "matchAll";
   "normalize"; "padEnd"; "padStart"; "repeat"; "replace"; "replaceAll"; "search";
   "slice"; "split"; "startsWith"; "substring"; "toLocaleLowerCase";
   "toLocaleUpperCase"; "toLowerCase"; "toString"; "toUpperCase"; "toWellFormed";
   "trim"; "trimEnd"; "trimStart"; "valueOf"; "substr"; "anchor"; "big"; "blink";
   "bold"; "fixed"; "fontcolor"; "fontsize"; "italics"; "link"; "small"; "strike";
   "sub"; "sup"; "trimLeft"; "trimRight"].

Definition isOneOf (names : list string) (key : string) : bool :=
  existsb (String.eqb key) names.

(** [Object.prototype[key]] *)
Definition objectMember (key : string) : option JsValue :=
  if String.eqb key "constructor" then Some (Builtin "Object")
  else if String.eqb key "__proto__" then Some (Builtin "Object.prototype")
  else if isOneOf objectMethods key then Some (Builtin ("Object.prototype." +:+ key))
  else None.

(** The properties of a primitive string: its own ones, which are its length
    and its characters, then those of [String.prototype], then those of
    [Object.prototype]. *)
Definition stringMember (s key : string) : option JsValue :=
  if String.eqb key "length" then Some (Value (PNumber (ofNat (String.length s))))
  else
    match parseIndex key with
    | Some i =>
        option_map (fun c => Value (PString (String c EmptyString))) (String.get i s)
    | None =>
        if String.eqb key "constructor" then Some (Builtin "String")
        else if String.eqb key "__proto__" then Some (Builtin "String.prototype")
        else if isOneOf stringMethods key then Some (Builtin ("String.prototype." +:+ key))
        else objectMember key
    end.

Definition runtime : Runtime := {|
  toLowerCase := lower;
  numberToString := showNumber;
  stringProperty := stringMember;
  objectPrototype := objectMember
|}.

End Reference.

(** ** Sample data *)

Module Sample.

Definition agent (id : number) (name : string) (profile : Profile) (status : Status)
  : Agent.Agent :=
  {| Agent.id := id; Agent.name := name; Agent.profile := profile;
     Agent.day := 0%float; Agent.t := 28800%float;
     Agent.lng := 116.5%float; Agent.lat := 39.75%float;
     Agent.parent_id := 0%float; Agent.action := "walk";
     Agent.status := status |}.

Definition tom : Agent.Agent :=
  agent 1%float "Tom"
    (ProfileObject {[ "gender" := PString "male"; "age" := PNumber 10%float ]})
    (StatusObject {[ "income" := PNumber 3%float ]}).

Definition nameless : Agent.Agent :=
  agent 2%float ""
    (ProfileObject {[ "gender" := PString "female"; "age" := PNumber 40%float ]})
    (StatusString "idle").

Definition eve : Agent.Agent :=
  agent 3%float "Eve" ProfileNull (StatusObject ∅).

Definition bridge (bridge_id : string) (name priority work_order_status : option string)
  (lng lat : option number) : BridgeOverlay.BridgeOverlay :=
  {| BridgeOverlay.bridge_id := bridge_id; BridgeOverlay.name := name;
     BridgeOverlay.priority := priority; BridgeOverlay.risk := None;
     BridgeOverlay.status := None;
     BridgeOverlay.work_order_status := work_order_status;
     BridgeOverlay.action := None; BridgeOverlay.due_date := None;
     BridgeOverlay.days_overdue := None;
     BridgeOverlay.lng := lng; BridgeOverlay.lat := lat;
     BridgeOverlay.last_update := None |}.

Definition north : BridgeOverlay.BridgeOverlay :=
  bridge "B-1" None (Some "Critical") (Some "In Progress")
    (Some 116.25%float) (Some 39.5%float).

Definition unplaced : BridgeOverlay.BridgeOverlay :=
  bridge "B-2" (Some "South") (Some "low") None (Some 116%float) None.

(** A feature of the area-of-interest layer, with and without a name. *)
Definition park : Feature.Feature :=
  {| Feature.id := Some (PNumber 7%float);
     Feature.properties :=
       Some {| Feature.name := Some "Park";
               Feature.land_use := Some "LAND_USE_TYPE_PUBLIC" |} |}.

Definition unnamedPark : Feature.Feature :=
  {| Feature.id := Some (PNumber 7%float);
     Feature.properties :=
       Some {| Feature.name := None;
               Feature.land_use := Some "LAND_USE_TYPE_PUBLIC" |} |}.

Definition aoiLayer : Layer :=
  Aoi {| GeoJsonLayer.id := "aoi"; GeoJsonLayer.pickable := true |}.

Definition leftClick : ClickEvent.ClickEvent :=
  {| ClickEvent.leftButton := true;
     ClickEvent.middleButton := false;
     ClickEvent.rightButton := false |}.

Definition rightClick : ClickEvent.ClickEvent :=
  {| ClickEvent.leftButton := false;
     ClickEvent.middleButton := false;
     ClickEvent.rightButton := true |}.

Definition store : Store.Store :=
  {| Store.agents := [(1%float, tom); (2%float, nameless); (3%float, eve)];
     Store.bridgeOverlays := Some [unplaced; north];
     Store.heatmapKeyInStatus := Some "income";
     Store.mapCenter := {| LngLat.lng := 116.5%float; LngLat.lat := 39.75%float |} |}.

End Sample.

(** ** Vocabulary of the properties *)

(** [needle] occurs in [s]. *)
Definition contains (needle s : string) : Prop :=
  exists before after, s = before +:+ needle +:+ after.

(** The agent's name is not the empty string. *)
Definition hasName (a : Agent.Agent) : bool :=
  negb (String.eqb (Agent.name a) "").

(** The label of an agent. *)
Definition textEntry (a : Agent.Agent) : TextDatum.TextDatum :=
  {| TextDatum.id := Agent.id a;
     TextDatum.position := (Agent.lng a, Agent.lat a);
     TextDatum.text := Agent.name a |}.

(** The list has a layer with this id. *)
Definition hasLayer (id : string) (layers : list Layer) : Prop :=
  exists layer, In layer layers /\ layerId layer = id.

(** The id of a clicked object: the id of the entry for an entry of the icon,
    text or point layer, the id of the feature for a feature, and [undefined]
    for a heatmap entry and for a bridge, which have none. *)
Inductive hasId : Datum -> option PropValue -> Prop :=
| hasId_icon (d : IconDatum.IconDatum) :
    hasId (DIcon d) (Some (PNumber (IconDatum.id d)))
| hasId_text (d : TextDatum.TextDatum) :
    hasId (DText d) (Some (PNumber (TextDatum.id d)))
| hasId_point (d : PointDatum.PointDatum) :
    hasId (DPoint d) (Some (PNumber (PointDatum.id d)))
| hasId_feature (f : Feature.Feature) :
    hasId (DFeature f) (Feature.id f)
| hasId_heat (d : HeatDatum.HeatDatum) :
    hasId (DHeat d) None
| hasId_bridge (b : BridgeOverlay.BridgeOverlay) :
    hasId (DBridge b) None.

(** A layer whose objects are agents: the ids [onClick] accepts. *)
Definition isAgentLayer (layer : Layer) : bool :=
  String.eqb (layerId layer) "icon"
  || String.eqb (layerId layer) "point"
  || String.eqb (layerId layer) "text".

(** The agent layers among the layers of a render. *)
Definition agentLayersOf (r : Rendered.Rendered) : list Layer :=
  List.filter isAgentLayer (Rendered.layers r).

(** The agent's profile is an object whose [gender] is this string. *)
Definition hasGender (a : Agent.Agent) (gender : string) : Prop :=
  exists fields,
    Agent.profile a = ProfileObject fields /\ fields !! "gender" = Some (PString gender).

(** The agent's profile is an object whose [age] is this number. *)
Definition hasAge (a : Agent.Agent) (age : number) : Prop :=
  exists fields,
    Agent.profile a = ProfileObject fields /\ fields !! "age" = Some (PNumber age).

(** The agent's profile is an object whose [age] is missing or a string. *)
Definition hasNoNumericAge (a : Agent.Agent) : Prop :=
  exists fields,
    Agent.profile a = ProfileObject fields
    /\ (fields !! "age" = None \/ exists s, fields !! "age" = Some (PString s)).

(** The buckets of one gender, as the three icons of that gender. *)
Definition bucket (age : number) (young adult senior : string) (url : string) : Prop :=
  (Number.lt age 18%float = true -> url = young)
  /\ (Number.ge age 18%float = true -> Number.lt age 65%float = true -> url = adult)
  /\ (Number.ge age 65%float = true -> url = senior).

(** The entry has both a longitude and a latitude. *)
Definition coordinateComplete (b : BridgeOverlay.BridgeOverlay) : Prop :=
  BridgeOverlay.lng b <> None /\ BridgeOverlay.lat b <> None.

Section Vocabulary.

Context {rt : Runtime}.

(** The work-order status is defined and its lowercased form contains
    ["progress"]. *)
Definition mentionsProgress (workOrderStatus : option string) : Prop :=
  exists s, workOrderStatus = Some s /\ contains "progress" (toLowerCase s).

(** The priority is defined and its lowercased form is ["critical"]. *)
Definition isCritical (priority : option string) : Prop :=
  exists s, priority = Some s /\ toLowerCase s = "critical".

(** The icon entry the callback builds for an agent, and what it logs. *)
Definition iconEntry (a : Agent.Agent) : IconDatum.IconDatum :=
  {| IconDatum.id := Agent.id a;
     IconDatum.coordinate := (Agent.lng a, Agent.lat a);
     IconDatum.avatarUrl := fst (selectAvatar (Agent.profile a) "/icon/agent.png") |}.

Definition iconLog (a : Agent.Agent) : list Event :=
  match snd (selectAvatar (Agent.profile a) "/icon/agent.png") with
  | Ok _ => []
  | Throw e => [ConsoleError e]
  end.


(** The icon entry of an agent with the default icon. *)
Definition defaultIconEntry (a : Agent.Agent) : IconDatum.IconDatum :=
  {| IconDatum.id := Agent.id a;
     IconDatum.coordinate := (Agent.lng a, Agent.lat a);
     IconDatum.avatarUrl := "/icon/agent.png" |}.

(** Selecting the icon from the agent's profile throws [e]. *)
Definition selectionThrows (a : Agent.Agent) (e : JsError) : Prop :=
  snd (selectAvatar (Agent.profile a) "/icon/agent.png") = Throw e.

(** The parts of the tooltip of a bridge. *)
Definition bridgeHeader (b : BridgeOverlay.BridgeOverlay) : string :=
  match BridgeOverlay.name b with
  | Some name => name
  | None => BridgeOverlay.bridge_id b
  end.

Definition bridgeStatusLine (b : BridgeOverlay.BridgeOverlay) : string :=
  let status :=
    match BridgeOverlay.status b with
    | Some status => status
    | None => "work_order"
    end in
  match BridgeOverlay.work_order_status b with
  | None | Some "" => status
  | Some work_order_status => status +:+ " - " +:+ work_order_status
  end.

Definition bridgePriorityLine (b : BridgeOverlay.BridgeOverlay) : string :=
  match BridgeOverlay.priority b with
  | None | Some "" => ""
  | Some priority => "Priority: " +:+ priority
  end.

Definition bridgeActionLine (b : BridgeOverlay.BridgeOverlay) : string :=
  match BridgeOverlay.action b with
  | Some action => action
  | None => ""
  end.

Definition bridgeDueLine (b : BridgeOverlay.BridgeOverlay) : string :=
  match BridgeOverlay.days_overdue b, BridgeOverlay.due_date b with
  | Some days_overdue, _ => "Overdue: " +:+ numberToString days_overdue +:+ " days"
  | None, (None | Some "") => ""
  | None, Some due_date => "Due: " +:+ due_date
  end.

(** The object is a feature with this name and id, and a land use whose
    label is [landUse]. *)
Definition aoiDescribed (object : Datum) (name : string) (id : PropValue)
  (landUse : string) : Prop :=
  exists f properties land_use,
    object = DFeature f
    /\ Feature.properties f = Some properties
    /\ Feature.name properties = Some name
    /\ Feature.id f = Some id
    /\ Feature.land_use properties = Some land_use
    /\ mapGet LAND_USE_NAME (Some land_use) = Some landUse.

(** The agent layers of a render at the given zoom, and what building them
    logs. *)
Definition agentPart (curZoom : number) (agentList : list Agent.Agent) : list Layer :=
  if Number.gt curZoom 10%float then
    [iconLayer (map iconEntry agentList); textLayer agentList]
  else
    [pointLayer agentList].

Definition renderLog (curZoom : number) (agentList : list Agent.Agent) : list Event :=
  if Number.gt curZoom 10%float then concat (map iconLog agentList) else [].

(** What a render returns. *)
Definition rendered (store : Store.Store) (curZoom : number) (hovering : bool)
  : Rendered.Rendered :=
  let agentList := map snd (Store.agents store) in
  {| Rendered.layers :=
       withBridges (Store.bridgeOverlays store ?? [])
         (withHeatmap (Store.heatmapKeyInStatus store) agentList
            (agentPart curZoom agentList));
     Rendered.initialViewState :=
       {| ViewState.longitude := LngLat.lng (Store.mapCenter store);
          ViewState.latitude := LngLat.lat (Store.mapCenter store);
          ViewState.zoom := 10.5;
          ViewState.pitch := 0;
          ViewState.bearing := 0;
          ViewState.transitionDuration := 2000 |}%float;
     Rendered.cursor := getCursor hovering |}.

(** The render succeeds and its agent layers are the icon layer, with one
    entry per agent, then the text layer, with one entry per named agent. *)
Definition rendersIconsAndNames (store : Store.Store) (curZoom : number)
  (hovering : bool) (events : list Event) : Prop :=
  let agentList := map snd (Store.agents store) in
  exists events' r icons names,
    Deck store curZoom hovering events = (events', Ok r)
    /\ agentLayersOf r = [Icons icons; Names names]
    /\ IconLayer.id icons = "icon"
    /\ TextLayer.id names = "text"
    /\ length (IconLayer.data icons) = length agentList
    /\ map IconDatum.id (IconLayer.data icons) = map Agent.id agentList
    /\ TextLayer.data names = map textEntry (List.filter hasName agentList).

(** The render succeeds and its agent layers are the point layer alone, with
    one entry per agent, all of one radius and colour. *)
Definition rendersPoints (store : Store.Store) (curZoom : number)
  (hovering : bool) (events : list Event) : Prop :=
  let agentList := map snd (Store.agents store) in
  exists events' r points,
    Deck store curZoom hovering events = (events', Ok r)
    /\ agentLayersOf r = [Points points]
    /\ ScatterplotLayer.id points = "point"
    /\ length (ScatterplotLayer.data points) = length agentList
    /\ map PointDatum.id (ScatterplotLayer.data points) = map Agent.id agentList
    /\ Forall (fun d => PointDatum.radius d = 10%float
                        /\ PointDatum.color d = [22; 119; 255]%float)
         (ScatterplotLayer.data points).

End Vocabulary.

(** ** The component's own state

    [useState(10.5)] and [useState(false)]: the setters a callback calls
    decide the values the next render reads. *)

Module UiState.
Record UiState := { curZoom : number; hovering : bool }.
End UiState.

Definition initialUi : UiState.UiState :=
  {| UiState.curZoom := 10.5%float; UiState.hovering := false |}.

Definition applyEvent (ui : UiState.UiState) (ev : Event) : UiState.UiState :=
  match ev with
  | SetCurZoom zoom =>
      {| UiState.curZoom := zoom; UiState.hovering := UiState.hovering ui |}
  | SetHovering hovering =>
      {| UiState.curZoom := UiState.curZoom ui; UiState.hovering := hovering |}
  | ConsoleError _ | ConsoleLog _ _ | SetClickedAgentID _ | PreventDefault => ui
  end.

Definition applyEvents (ui : UiState.UiState) (events : list Event) : UiState.UiState :=
  fold_left applyEvent events ui.

(** ** More vocabulary *)

(** The objects of a layer, as picking can hand them to a callback. *)
Definition objectsOf (layer : Layer) : list Datum :=
  match layer with
  | Icons l => map DIcon (IconLayer.data l)
  | Names l => map DText (TextLayer.data l)
  | Points l => map DPoint (ScatterplotLayer.data l)
  | Heatmap l => map DHeat (HeatmapLayer.data l)
  | BridgeMarkers l => map DBridge (ScatterplotLayer.data l)
  | BridgeLabels l => map DBridge (TextLayer.data l)
  | Aoi _ => []
  end.

(** Where the entries of an agent layer are drawn. *)
Definition positionsOf (layer : Layer) : list Position :=
  match layer with
  | Icons l => map (IconLayer.getPosition l) (IconLayer.data l)
  | Names l => map (TextLayer.getPosition l) (TextLayer.data l)
  | Points l => map (ScatterplotLayer.getPosition l) (ScatterplotLayer.data l)
  | Heatmap l => map (HeatmapLayer.getPosition l) (HeatmapLayer.data l)
  | BridgeMarkers _ | BridgeLabels _ | Aoi _ => []
  end.

(** The icons the component ships. *)
Definition knownIcons : list string :=
  ["/icon/agent.png";
   "/icon/boy1.png"; "/icon/boy2.png"; "/icon/boy3.png";
   "/icon/girl1.png"; "/icon/girl2.png"; "/icon/girl3.png"].

(** The agent's profile is [null]. *)
Definition nullProfile (a : Agent.Agent) : bool :=
  match Agent.profile a with
  | ProfileNull => true
  | ProfileUndefined | ProfileObject _ => false
  end.

(** What reading [gender] off a [null] profile throws. *)
Definition genderReadError : JsError :=
  TypeError "Cannot read properties of null (reading 'gender')".

(** The event is a call of [setCurZoom]. *)
Definition isZoomChange (ev : Event) : bool :=
  match ev with
  | SetCurZoom _ => true
  | _ => false
  end.

(** Two optional strings that a truthiness test cannot tell apart: equal, or
    one empty and the other missing. *)
Definition sameWhenTested (x y : option string) : Prop :=
  x = y \/ (x = Some "" /\ y = None) \/ (x = None /\ y = Some "").

(** The ids of the layers of a render, in the order they are drawn. *)
Definition layerOrder (heatmapKey : option string) (curZoom : number)
  (bridgeOverlays : list BridgeOverlay.BridgeOverlay) : list string :=
  (match heatmapKey with Some _ => ["heatmap"] | None => [] end)
  ++ (if Number.gt curZoom 10%float then ["icon"; "text"] else ["point"])
  ++ (if existsb hasCoordinates bridgeOverlays
      then ["bridge-status"; "bridge-status-label"] else []).

(** ** More sample data *)

Module Scene.

(** The entry of Tom in the point layer. *)
Definition tomPoint : Datum :=
  DPoint {| PointDatum.id := 1%float;
            PointDatum.position := (116.5, 39.75)%float;
            PointDatum.radius := 10%float;
            PointDatum.color := [22; 119; 255]%float |}.

(** The entries of Tom in the icon layer and in the text layer. *)
Definition tomIcon : Datum :=
  DIcon {| IconDatum.id := 1%float;
           IconDatum.coordinate := (116.5, 39.75)%float;
           IconDatum.avatarUrl := "/icon/boy1.png" |}.

Definition tomName : Datum :=
  DText {| TextDatum.id := 1%float;
           TextDatum.position := (116.5, 39.75)%float;
           TextDatum.text := "Tom" |}.


(** A critical bridge with no work order. *)
Definition urgent : BridgeOverlay.BridgeOverlay :=
  Sample.bridge "B-4" None (Some "CRITICAL") None (Some 116%float) (Some 39%float).

(** A bridge with empty strings, and the same bridge with missing values. *)
Definition emptied : BridgeOverlay.BridgeOverlay :=
  Sample.bridge "B-5" None (Some "") (Some "") None None.

Definition bare : BridgeOverlay.BridgeOverlay :=
  Sample.bridge "B-5" None None None None None.

End Scene.

(** * Properties *)

(** ** Numbers *)

(** The order of the specification floats is antisymmetric: swapping the
    operands flips the outcome, and NaN stays unordered. *)
Lemma SFcompare_swap (x y : spec_float) :
  SFcompare y x = option_map CompOpp (SFcompare x y).
Proof.
  destruct x as [sx|sx| |sx mx ex], y as [sy|sy| |sy my ey]; simpl;
    try reflexivity;
    try (destruct sx; reflexivity); try (destruct sy; reflexivity);
    try (destruct sx, sy; reflexivity).
  destruct sx, sy; simpl; try reflexivity;
    rewrite (Z.compare_antisym ex ey);
    destruct (ex ?= ey)%Z; simpl; try reflexivity;
    change (Pos.compare_cont Eq my mx)
      with (Pos.compare_cont (CompOpp Eq) my mx);
    rewrite <- (Pos.compare_cont_antisym mx my Eq);
    destruct (Pos.compare_cont Eq mx my); reflexivity.
Qed.

Lemma lt_not_gt (x y : number) : Number.lt x y = true -> Number.gt x y = false.
Proof.
  unfold Number.lt, Number.gt. rewrite !ltb_spec. unfold SFltb.
  rewrite (SFcompare_swap (Prim2SF x) (Prim2SF y)).
  destruct (SFcompare (Prim2SF x) (Prim2SF y)) as [[ | | ]|]; simpl; congruence.
Qed.

Lemma le_not_gt (x y : number) : Number.le x y = true -> Number.gt x y = false.
Proof.
  unfold Number.le, Number.gt. rewrite ltb_spec, leb_spec. unfold SFltb, SFleb.
  rewrite (SFcompare_swap (Prim2SF x) (Prim2SF y)).
  destruct (SFcompare (Prim2SF x) (Prim2SF y)) as [[ | | ]|]; simpl; congruence.
Qed.

Lemma ge_not_lt (x y : number) : Number.ge x y = true -> Number.lt x y = false.
Proof. unfold Number.ge, Number.lt. intros H. apply (le_not_gt y x H). Qed.


Lemma ge_65_not_lt_18 (x : number) :
  Number.ge x 65%float = true -> Number.lt x 18%float = false.
Proof.
  unfold Number.ge, Number.lt. rewrite leb_spec, ltb_spec.
  change (Prim2SF 65%float) with (S754_finite false 4573968371548160 (-46)).
  change (Prim2SF 18%float) with (S754_finite false 5066549580791808 (-48)).
  unfold SFleb, SFltb, SFcompare.
  destruct (Prim2SF x) as [s|s| |s m e]; cbv beta iota.
  1,2: destruct s; congruence.
  1: congruence.
  destruct s; try congruence.
  destruct (Z.compare_spec (-46) e) as [He|He|He];
    destruct (Z.compare_spec e (-48)) as [He'|He'|He']; try lia; try congruence.
  all: try (destruct (Pos.compare_cont Eq m 5066549580791808); congruence).
Qed.

(** ** Strings *)

Lemma prefix_append (needle s : string) :
  String.prefix needle s = true <-> exists after, s = needle +:+ after.
Proof.
  revert s. induction needle as [|c needle IH]; intros s; simpl.
  - split; [intros _; exists s; reflexivity | intros _; destruct s; reflexivity].
  - destruct s as [|d s]; simpl.
    + split; [discriminate | intros [after H]; discriminate].
    + destruct (ascii_dec c d) as [->|Hne].
      * rewrite IH. split; intros [after H]; exists after.
        -- now rewrite H.
        -- now injection H.
      * split; [discriminate | intros [after H]; injection H; congruence].
Qed.

Lemma includes_contains (needle s : string) :
  includes needle s = true <-> contains needle s.
Proof.
  unfold contains. induction s as [|c s IH]; cbn [includes].
  - rewrite orb_false_r, prefix_append. split.
    + intros [after H]. exists "", after. exact H.
    + intros [before [after H]]. destruct before; simpl in H.
      * exists after. exact H.
      * discriminate.
  - rewrite orb_true_iff, prefix_append, IH. split.
    + intros [[after H]|[before [after H]]].
      * exists "", after. exact H.
      * exists (String c before), after. simpl. now rewrite H.
    + intros [before [after H]]. destruct before as [|d before]; simpl in H.
      * left. exists after. exact H.
      * right. injection H as _ H. exists before, after. exact H.
Qed.

Lemma not_contains_progress_empty : ~ contains "progress" "".
Proof.
  intros [before [after H]]. destruct before; discriminate.
Qed.

(** ** The render *)

Section Properties.

Context {rt : Runtime}.

Lemma textData_filter (agentList : list Agent.Agent) :
  textData agentList = map textEntry (List.filter hasName agentList).
Proof.
  unfold textData. induction agentList as [|a rest IH]; [reflexivity|].
  cbn [omap list_omap List.filter]. unfold hasName at 1.
  destruct (String.eqb (Agent.name a) ""); cbn [negb map]; now rewrite <- IH.
Qed.

(** A [try] block that throws leaves [avatarUrl] as it found it: every
    assignment comes after the last read that can throw. *)
Lemma selectAvatar_throw (profile : Profile) (avatarUrl avatarUrl' : string) (e : JsError) :
  selectAvatar profile avatarUrl = (avatarUrl', Throw e) -> avatarUrl' = avatarUrl.
Proof.
  unfold selectAvatar, bind, liftResult, getProperty, ret, put.
  destruct profile as [| |fields]; [congruence..|].
  destruct (isString (fields !! "gender") "male"), (asNumber (fields !! "age")) as [age|];
    repeat match goal with
           | |- context [if ?b then _ else _] => destruct b
           end; congruence.
Qed.

Lemma iconDatum_run (a : Agent.Agent) (events : list Event) :
  iconDatum a events = (events ++ iconLog a, Ok (iconEntry a)).
Proof.
  unfold iconDatum, iconLog, iconEntry.
  destruct (selectAvatar (Agent.profile a) "/icon/agent.png") as [url [[]|e]]; cbn.
  - now rewrite app_nil_r.
  - reflexivity.
Qed.

Lemma mapM_iconDatum (agentList : list Agent.Agent) (events : list Event) :
  mapM iconDatum agentList events =
    (events ++ concat (map iconLog agentList), Ok (map iconEntry agentList)).
Proof.
  revert events. induction agentList as [|a rest IH]; intros events; cbn [mapM map concat].
  - unfold ret. now rewrite app_nil_r.
  - unfold bind at 1. rewrite iconDatum_run.
    unfold bind at 1. rewrite IH. unfold ret. now rewrite app_assoc.
Qed.

Lemma agentLayers_run (curZoom : number) (agentList : list Agent.Agent) (events : list Event) :
  agentLayers curZoom agentList events =
    if Number.gt curZoom 10%float then
      (events ++ concat (map iconLog agentList),
       Ok [iconLayer (map iconEntry agentList); textLayer agentList])
    else
      (events, Ok [pointLayer agentList]).
Proof.
  unfold agentLayers. destruct (Number.gt curZoom 10%float); [|reflexivity].
  unfold bind. now rewrite mapM_iconDatum.
Qed.

Lemma Deck_run (store : Store.Store) (curZoom : number) (hovering : bool)
  (events : list Event) :
  Deck store curZoom hovering events =
    (events ++ renderLog curZoom (map snd (Store.agents store)),
     Ok (rendered store curZoom hovering)).
Proof.
  unfold Deck, bind, rendered, renderLog, agentPart. rewrite agentLayers_run.
  destruct (Number.gt curZoom 10%float); unfold ret; [reflexivity|].
  now rewrite app_nil_r.
Qed.

Lemma agentLayersOf_rendered (store : Store.Store) (curZoom : number) (hovering : bool) :
  agentLayersOf (rendered store curZoom hovering) =
    agentPart curZoom (map snd (Store.agents store)).
Proof.
  unfold agentLayersOf, rendered, Rendered.layers, withBridges, withHeatmap, agentPart.
  set (agentList := map snd (Store.agents store)).
  destruct (0 <? _)%nat; destruct (Store.heatmapKeyInStatus store);
    destruct (Number.gt curZoom 10%float);
    rewrite ?filter_app; reflexivity.
Qed.

(** ** Zoom and the agent layers *)

Lemma rendersIconsAndNames_above (store : Store.Store) (curZoom : number)
  (hovering : bool) (events : list Event) :
  Number.gt curZoom 10%float = true ->
  rendersIconsAndNames store curZoom hovering events.
Proof.
  intros Hzoom. unfold rendersIconsAndNames. cbv zeta.
  eexists _, _, _, _. split; [apply Deck_run|].
  rewrite agentLayersOf_rendered. unfold agentPart. rewrite Hzoom.
  split; [reflexivity|]. cbn.
  repeat split.
  - now rewrite !length_map.
  - rewrite map_map. reflexivity.
  - apply textData_filter.
Qed.

Lemma rendersPoints_otherwise (store : Store.Store) (curZoom : number)
  (hovering : bool) (events : list Event) :
  Number.gt curZoom 10%float = false ->
  rendersPoints store curZoom hovering events.
Proof.
  intros Hzoom. unfold rendersPoints. cbv zeta.
  eexists _, _, _. split; [apply Deck_run|].
  rewrite agentLayersOf_rendered. unfold agentPart. rewrite Hzoom.
  split; [reflexivity|]. cbn.
  repeat split.
  - now rewrite !length_map.
  - rewrite map_map. reflexivity.
  - apply List.Forall_forall. intros d Hd. apply in_map_iff in Hd.
    destruct Hd as [a [<- _]]. split; reflexivity.
Qed.

(** C1 (amended). The switch is at zoom strictly above 10: for every zoom
    level greater than 10 the agent layers of the render are the icon layer,
    with one entry per agent, and the text layer, with one entry per agent of
    non-empty name; for every zoom level at or below 10, and so for every one
    strictly below 10, they are a single uniform point layer with one entry
    per agent. *)
Theorem agent_layers_switch_above_zoom_10 (store : Store.Store) (curZoom : number)
  (hovering : bool) (events : list Event) :
  (Number.gt curZoom 10%float = true ->
     rendersIconsAndNames store curZoom hovering events)
  /\ (Number.le curZoom 10%float = true ->
       rendersPoints store curZoom hovering events)
  /\ (Number.lt curZoom 10%float = true ->
       rendersPoints store curZoom hovering events).
Proof.
  split; [|split].
  - apply rendersIconsAndNames_above.
  - intros Hzoom. apply rendersPoints_otherwise. now apply le_not_gt.
  - intros Hzoom. apply rendersPoints_otherwise. now apply lt_not_gt.
Qed.

(** ** Bridge colours *)

Lemma progress_test (workOrderStatus : option string) :
  match option_map toLowerCase workOrderStatus with
  | Some s => negb (String.eqb s "") && includes "progress" s
  | None => false
  end = true <-> mentionsProgress workOrderStatus.
Proof.
  unfold mentionsProgress. destruct workOrderStatus as [w|]; cbn [option_map].
  - rewrite andb_true_iff, includes_contains. split.
    + intros [_ H]. exists w. now split.
    + intros [s [[= <-] H]]. split; [|exact H].
      destruct (String.eqb_spec (toLowerCase w) "") as [Hempty|]; [|reflexivity].
      rewrite Hempty in H. now apply not_contains_progress_empty in H.
  - split; [discriminate | intros [s [[=] _]]].
Qed.

Lemma critical_test (priority : option string) :
  strictEq (option_map toLowerCase priority) "critical" = true <-> isCritical priority.
Proof.
  unfold isCritical, strictEq. destruct priority as [p|]; cbn [option_map].
  - rewrite String.eqb_eq. split.
    + intros H. now exists p.
    + now intros [s [[= <-] H]].
  - split; [discriminate | intros [s [[=] _]]].
Qed.

(** C2. A work-order status that is defined and whose lowercased form
    contains "progress" gives the in-progress colour whatever the priority;
    otherwise a priority whose lowercased form is "critical" gives the critical
    colour; otherwise the colour is the default one. *)
Theorem bridgeStatusColor_precedence (priority workOrderStatus : option string) :
  (mentionsProgress workOrderStatus ->
     bridgeStatusColor priority workOrderStatus = BRIDGE_COLORS.inProgress)
  /\ (~ mentionsProgress workOrderStatus -> isCritical priority ->
       bridgeStatusColor priority workOrderStatus = BRIDGE_COLORS.critical)
  /\ (~ mentionsProgress workOrderStatus -> ~ isCritical priority ->
       bridgeStatusColor priority workOrderStatus = BRIDGE_COLORS.default).
Proof.
  unfold bridgeStatusColor. cbv zeta.
  pose proof (progress_test workOrderStatus) as Hprogress.
  pose proof (critical_test priority) as Hcritical.
  destruct (match option_map toLowerCase workOrderStatus with
            | Some s => negb (String.eqb s "") && includes "progress" s
            | None => false
            end);
    destruct (strictEq (option_map toLowerCase priority) "critical");
    repeat split; intros; try reflexivity;
    try (exfalso; intuition congruence).
Qed.

(** ** Icon selection *)

Lemma avatar_male (fields : gmap string PropValue) (age : number) (avatarUrl : string) :
  fields !! "gender" = Some (PString "male") ->
  fields !! "age" = Some (PNumber age) ->
  fst (selectAvatar (ProfileObject fields) avatarUrl) =
    if Number.lt age 18%float then "/icon/boy1.png"
    else if Number.lt age 65%float then "/icon/boy2.png"
    else "/icon/boy3.png".
Proof.
  intros Hgender Hage.
  unfold selectAvatar, bind, liftResult, getProperty, put.
  rewrite Hgender, Hage. cbn [isString asNumber].
  change (String.eqb "male" "male") with true. cbv iota.
  destruct (Number.lt age 18%float); [reflexivity|].
  destruct (Number.lt age 65%float); reflexivity.
Qed.

Lemma avatar_female (fields : gmap string PropValue) (age : number) (avatarUrl : string) :
  fields !! "gender" = Some (PString "female") ->
  fields !! "age" = Some (PNumber age) ->
  fst (selectAvatar (ProfileObject fields) avatarUrl) =
    if Number.lt age 18%float then "/icon/girl1.png"
    else if Number.lt age 65%float then "/icon/girl2.png"
    else "/icon/girl3.png".
Proof.
  intros Hgender Hage.
  unfold selectAvatar, bind, liftResult, getProperty, put.
  rewrite Hgender, Hage. cbn [isString asNumber].
  change (String.eqb "female" "male") with false.
  change (String.eqb "female" "female") with true. cbv iota.
  destruct (Number.lt age 18%float); [reflexivity|].
  destruct (Number.lt age 65%float); reflexivity.
Qed.

Lemma avatar_without_age (fields : gmap string PropValue) (avatarUrl : string) :
  asNumber (fields !! "age") = None ->
  fst (selectAvatar (ProfileObject fields) avatarUrl) = avatarUrl.
Proof.
  intros Hage.
  unfold selectAvatar, bind, liftResult, getProperty, ret.
  rewrite Hage.
  destruct (isString (fields !! "gender") "male"),
           (isString (fields !! "gender") "female"); reflexivity.
Qed.

Lemma bucket_of_tests (age : number) (young adult senior : string) :
  bucket age young adult senior
    (if Number.lt age 18%float then young
     else if Number.lt age 65%float then adult
     else senior).
Proof.
  unfold bucket. repeat split.
  - now intros ->.
  - intros H18 H65. apply ge_not_lt in H18. now rewrite H18, H65.
  - intros H65. pose proof (ge_65_not_lt_18 age H65) as H18.
    apply ge_not_lt in H65. now rewrite H18, H65.
Qed.

(** The profile named by a gender and by an age is one object. *)
Ltac same_profile :=
  let fields := fresh "fields" in
  let fields' := fresh "fields'" in
  let Hp := fresh "Hp" in
  let Hp' := fresh "Hp'" in
  intros [fields [Hp Hgender]] [fields' [Hp' Hage]];
  rewrite Hp in Hp'; injection Hp' as <-; rewrite Hp.

(** C3. The icon entry of an agent is always built, and its icon is: for
    gender "male", boy1 below age 18 (so at age 10), boy2 from 18 to below 65,
    boy3 from 65; for gender "female", girl1, girl2 (so at age 40) and girl3 on
    the same buckets; the default agent icon when the profile is undefined,
    and when the age is not a number. *)
Theorem icon_selection_by_profile (a : Agent.Agent) (events : list Event) :
  exists events' d,
    iconDatum a events = (events', Ok d)
    /\ (forall age, hasGender a "male" -> hasAge a age ->
          bucket age "/icon/boy1.png" "/icon/boy2.png" "/icon/boy3.png"
            (IconDatum.avatarUrl d))
    /\ (forall age, hasGender a "female" -> hasAge a age ->
          bucket age "/icon/girl1.png" "/icon/girl2.png" "/icon/girl3.png"
            (IconDatum.avatarUrl d))
    /\ (hasGender a "male" -> hasAge a 10%float ->
          IconDatum.avatarUrl d = "/icon/boy1.png")
    /\ (hasGender a "female" -> hasAge a 40%float ->
          IconDatum.avatarUrl d = "/icon/girl2.png")
    /\ (Agent.profile a = ProfileUndefined ->
          IconDatum.avatarUrl d = "/icon/agent.png")
    /\ (hasNoNumericAge a ->
          IconDatum.avatarUrl d = "/icon/agent.png").
Proof.
  eexists _, _. split; [apply iconDatum_run|].
  unfold iconEntry, IconDatum.avatarUrl.
  repeat apply conj.
  - intros age. same_profile.
    rewrite (avatar_male _ age _ Hgender Hage). apply bucket_of_tests.
  - intros age. same_profile.
    rewrite (avatar_female _ age _ Hgender Hage). apply bucket_of_tests.
  - same_profile. now rewrite (avatar_male _ _ _ Hgender Hage).
  - same_profile. now rewrite (avatar_female _ _ _ Hgender Hage).
  - now intros ->.
  - intros [fields [Hp Hage]]. rewrite Hp. apply avatar_without_age.
    destruct Hage as [->|[s ->]]; reflexivity.
Qed.

(** ** The layer list *)

(** Membership of an id in the list of ids of a render, case by case. *)
Ltac layer_ids :=
  repeat match goal with
         | |- context [Store.heatmapKeyInStatus ?store] =>
             destruct (Store.heatmapKeyInStatus store)
         | |- context [Number.gt ?zoom ?threshold] =>
             destruct (Number.gt zoom threshold)
         end;
  cbn; intuition congruence.

Lemma hasLayer_ids (id : string) (layers : list Layer) :
  hasLayer id layers <-> In id (map layerId layers).
Proof.
  unfold hasLayer. rewrite in_map_iff. split; intros [l [H1 H2]]; exists l; now split.
Qed.

Lemma rendered_layer_ids (store : Store.Store) (curZoom : number) (hovering : bool) :
  map layerId (Rendered.layers (rendered store curZoom hovering)) =
    (match Store.heatmapKeyInStatus store with Some _ => ["heatmap"] | None => [] end)
    ++ (if Number.gt curZoom 10%float then ["icon"; "text"] else ["point"])
    ++ (if (0 <? length (List.filter hasCoordinates (Store.bridgeOverlays store ?? [])))%nat
        then ["bridge-status"; "bridge-status-label"] else []).
Proof.
  unfold rendered, Rendered.layers, withBridges, withHeatmap, agentPart.
  destruct (0 <? _)%nat; destruct (Store.heatmapKeyInStatus store);
    destruct (Number.gt curZoom 10%float);
    rewrite ?map_app; reflexivity.
Qed.

Lemma hasCoordinates_complete (b : BridgeOverlay.BridgeOverlay) :
  hasCoordinates b = true <-> coordinateComplete b.
Proof.
  unfold hasCoordinates, coordinateComplete.
  destruct (BridgeOverlay.lng b), (BridgeOverlay.lat b);
    (split;
     [ intros H; first [discriminate H | split; congruence]
     | intros [H1 H2]; first [reflexivity | congruence] ]).
Qed.

Lemma some_complete (overlays : list BridgeOverlay.BridgeOverlay) :
  (0 <? length (List.filter hasCoordinates overlays))%nat = true
  <-> exists b, In b overlays /\ coordinateComplete b.
Proof.
  rewrite Nat.ltb_lt. split.
  - destruct (List.filter hasCoordinates overlays) as [|b rest] eqn:Hfilter;
      cbn [length]; [lia|]. intros _.
    assert (In b (List.filter hasCoordinates overlays)) as Hin
      by (rewrite Hfilter; now left).
    apply filter_In in Hin. exists b. now rewrite <- hasCoordinates_complete.
  - intros [b [Hin Hb]]. apply hasCoordinates_complete in Hb.
    assert (In b (List.filter hasCoordinates overlays)) as Hin'
      by (apply filter_In; now split).
    destruct (List.filter hasCoordinates overlays); [destruct Hin'|cbn; lia].
Qed.

(** C4. The render succeeds; its layer list has the bridge marker layer
    exactly when some overlay entry has both coordinates, and the same for the
    bridge label layer; when it has them they are its last two layers, and the
    data of both is the list of the coordinate-complete entries, which holds
    exactly the entries of the overlay list that have both coordinates. *)
Theorem bridge_layers_iff_coordinates (store : Store.Store) (curZoom : number)
  (hovering : bool) (events : list Event) :
  let overlays := Store.bridgeOverlays store ?? [] in
  let complete := List.filter hasCoordinates overlays in
  exists events' r,
    Deck store curZoom hovering events = (events', Ok r)
    /\ (hasLayer "bridge-status" (Rendered.layers r)
         <-> exists b, In b overlays /\ coordinateComplete b)
    /\ (hasLayer "bridge-status-label" (Rendered.layers r)
         <-> exists b, In b overlays /\ coordinateComplete b)
    /\ ((exists b, In b overlays /\ coordinateComplete b) ->
         exists others markers labels,
           Rendered.layers r = others ++ [BridgeMarkers markers; BridgeLabels labels]
           /\ ScatterplotLayer.id markers = "bridge-status"
           /\ TextLayer.id labels = "bridge-status-label"
           /\ ScatterplotLayer.data markers = complete
           /\ TextLayer.data labels = complete)
    /\ (forall b, In b complete <-> In b overlays /\ coordinateComplete b).
Proof.
  cbv zeta. eexists _, _. split; [apply Deck_run|].
  rewrite !hasLayer_ids, rendered_layer_ids.
  unfold rendered, Rendered.layers, withBridges.
  set (overlays := Store.bridgeOverlays store ?? []).
  pose proof (some_complete overlays) as Hsome.
  destruct (0 <? length (List.filter hasCoordinates overlays))%nat.
  - split; [|split; [|split]].
    + layer_ids.
    + layer_ids.
    + intros _. eexists _, _, _. split; [reflexivity|]. now repeat split.
    + intros b. rewrite filter_In, hasCoordinates_complete. reflexivity.
  - assert (~ exists b, In b overlays /\ coordinateComplete b) as Hnone
      by (intros H; apply Hsome in H; discriminate).
    split; [|split; [|split]].
    + layer_ids.
    + layer_ids.
    + intros H. now destruct Hnone.
    + intros b. rewrite filter_In, hasCoordinates_complete. reflexivity.
Qed.




(** ** Failures of the icon selection *)

Lemma iconDatum_caught (a : Agent.Agent) (e : JsError) (events : list Event) :
  selectionThrows a e ->
  iconDatum a events = (events ++ [ConsoleError e], Ok (defaultIconEntry a)).
Proof.
  unfold selectionThrows. intros Hthrow. rewrite iconDatum_run.
  unfold iconLog, iconEntry, defaultIconEntry. rewrite Hthrow.
  destruct (selectAvatar (Agent.profile a) "/icon/agent.png") as [url completion] eqn:Hrun.
  cbn in Hthrow. subst completion.
  now rewrite (selectAvatar_throw _ _ _ _ Hrun).
Qed.

(** C6. When the icon selection of an agent throws, the callback catches and
    logs what was thrown and still returns the agent's entry, with the default
    icon; a render never throws; and a render above zoom 10, which builds the
    icons, logs the error and has that entry in its icon layer. *)
Theorem profile_failure_is_contained (store : Store.Store) (curZoom : number)
  (hovering : bool) (events : list Event) :
  (forall a e log, selectionThrows a e ->
     iconDatum a log = (log ++ [ConsoleError e], Ok (defaultIconEntry a)))
  /\ (exists events' r, Deck store curZoom hovering events = (events', Ok r))
  /\ (forall a e,
        In a (map snd (Store.agents store)) ->
        Number.gt curZoom 10%float = true ->
        selectionThrows a e ->
        exists logged r icons,
          Deck store curZoom hovering events = (events ++ logged, Ok r)
          /\ In (ConsoleError e) logged
          /\ In (Icons icons) (Rendered.layers r)
          /\ In (defaultIconEntry a) (IconLayer.data icons)).
Proof.
  split; [|split].
  - intros a e log. apply iconDatum_caught.
  - eexists _, _. apply Deck_run.
  - intros a e Hin Hzoom Hthrow.
    eexists _, _, _. split; [apply Deck_run|].
    unfold renderLog, rendered, Rendered.layers, withBridges, withHeatmap, agentPart.
    rewrite Hzoom. split; [|split].
    + apply in_concat. exists (iconLog a). split.
      * now apply in_map.
      * unfold iconLog. unfold selectionThrows in Hthrow. rewrite Hthrow. now left.
    + destruct (0 <? _)%nat; destruct (Store.heatmapKeyInStatus store);
        cbn; rewrite ?in_app_iff; cbn; eauto 6.
    + cbn. apply in_map_iff. exists a. split; [|exact Hin].
      pose proof (iconDatum_caught a e [] Hthrow) as Hrun.
      rewrite iconDatum_run in Hrun. congruence.
Qed.

(** ** Clicks *)

Lemma isAgentLayer_ids (layer : Layer) :
  isAgentLayer layer = true
  <-> layerId layer = "icon" \/ layerId layer = "point" \/ layerId layer = "text".
Proof.
  unfold isAgentLayer. rewrite !orb_true_iff, !String.eqb_eq. tauto.
Qed.

(** C7. A left-button click on an object of a layer of id 'icon', 'point' or
    'text' logs the click and calls [setClickedAgentID] once, with the id of
    the object, which for an entry of the icon, text or point layer is the id
    of that entry; a left-button click with no picked layer, and a click with
    another button, log the click and do nothing else. *)
Theorem onClick_selects_agent (info : PickingInfo.PickingInfo)
  (event : ClickEvent.ClickEvent) (events : list Event) :
  (forall layer object id,
     ClickEvent.leftButton event = true ->
     PickingInfo.layer info = Some layer ->
     layerId layer = "icon" \/ layerId layer = "point" \/ layerId layer = "text" ->
     PickingInfo.object info = Some object ->
     hasId object id ->
     onClick info event events =
       (events ++ [ConsoleLog info event; SetClickedAgentID id], Ok tt))
  /\ (ClickEvent.leftButton event = true ->
       PickingInfo.layer info = None ->
       onClick info event events = (events ++ [ConsoleLog info event], Ok tt))
  /\ (ClickEvent.leftButton event = false ->
       onClick info event events = (events ++ [ConsoleLog info event], Ok tt)).
Proof.
  unfold onClick, bind, emit, modify, ret. split; [|split].
  - intros layer object id Hleft Hlayer Hid Hobject Hhas.
    apply isAgentLayer_ids in Hid. unfold isAgentLayer in Hid.
    rewrite Hleft, Hlayer, Hid, Hobject. rewrite <- app_assoc.
    now destruct Hhas.
  - intros Hleft Hlayer. now rewrite Hleft, Hlayer.
  - intros Hleft. rewrite Hleft. now destruct (PickingInfo.coordinate info).
Qed.

(** ** Tooltips *)

Lemma bridgeTooltip_html (b : BridgeOverlay.BridgeOverlay) :
  Tooltip.html (bridgeTooltip (DBridge b)) =
    "<b>" +:+ bridgeHeader b +:+ "</b><br/>" +:+ bridgeStatusLine b +:+ "<br/>"
      +:+ bridgePriorityLine b +:+ "<br/>" +:+ bridgeActionLine b +:+ "<br/>"
      +:+ bridgeDueLine b.
Proof.
  unfold bridgeTooltip, Tooltip.html, fromBridge, orElse.
  unfold bridgeHeader, bridgeStatusLine, bridgePriorityLine, bridgeActionLine, bridgeDueLine.
  destruct (BridgeOverlay.name b), (BridgeOverlay.status b),
    (BridgeOverlay.work_order_status b) as [[|c w]|],
    (BridgeOverlay.priority b) as [[|c' p]|],
    (BridgeOverlay.action b),
    (BridgeOverlay.days_overdue b),
    (BridgeOverlay.due_date b) as [[|c'' d]|]; reflexivity.
Qed.

Lemma aoiTooltip_described (object : Datum) (name : string) (id : PropValue)
  (landUse : string) :
  aoiDescribed object name id landUse ->
  exists tip,
    aoiTooltip object = Some tip
    /\ Tooltip.html tip =
         "<b>" +:+ name +:+ "</b><br/>ID = " +:+ templateValue id +:+ "<br/>" +:+ landUse.
Proof.
  intros (f & properties & land_use & -> & Hp & Hname & Hid & Hland & Hlabel).
  unfold aoiTooltip, objectProperties, objectId.
  rewrite Hp, Hid. cbn [mbind option_bind]. rewrite Hname, Hland, Hlabel.
  eexists. split; reflexivity.
Qed.

Lemma aoiTooltip_otherwise (object : Datum) :
  (~ exists name id landUse, aoiDescribed object name id landUse) ->
  aoiTooltip object = None.
Proof.
  intros Hnot. unfold aoiTooltip.
  destruct (objectProperties object ≫= Feature.name) as [name|] eqn:Hname; [|reflexivity].
  destruct (objectId object) as [id|] eqn:Hid; [|reflexivity].
  destruct (mapGet LAND_USE_NAME (objectProperties object ≫= Feature.land_use))
    as [landUse|] eqn:Hlabel; [|reflexivity].
  exfalso. apply Hnot. exists name, id, landUse. unfold aoiDescribed.
  destruct object as [d|d|d|d|b|f]; try discriminate Hname.
  cbn [objectProperties objectId] in *.
  destruct (Feature.properties f) as [properties|] eqn:Hp; [|discriminate Hname].
  cbn [mbind option_bind] in *.
  destruct (Feature.land_use properties) as [land_use|] eqn:Hland;
    [|discriminate Hlabel].
  exists f, properties, land_use. now repeat split.
Qed.

(** C8 (amended). The tooltip is null when there is no hovered object or no
    layer. For the layer ids 'bridge-status' and 'bridge-status-label' it is a
    block, which for a bridge holds, in this order, its name, or its bridge
    id when it has no name, the status line, the priority line, the action and
    the overdue days or else the due date. For the layer id 'aoi' it is the
    block of name, id and land-use label when the object is a feature that has
    a name, an id and a land use with a label, and null otherwise. For every
    other layer id it is null. *)
Theorem getTooltip_dispatch (object : option Datum) (layer : option Layer) :
  (object = None \/ layer = None -> getTooltip object layer = None)
  /\ (forall o l,
        object = Some o -> layer = Some l ->
        layerId l = "bridge-status" \/ layerId l = "bridge-status-label" ->
        exists tip,
          getTooltip object layer = Some tip
          /\ forall b, o = DBridge b ->
               Tooltip.html tip =
                 "<b>" +:+ bridgeHeader b +:+ "</b><br/>" +:+ bridgeStatusLine b
                   +:+ "<br/>" +:+ bridgePriorityLine b +:+ "<br/>"
                   +:+ bridgeActionLine b +:+ "<br/>" +:+ bridgeDueLine b)
  /\ (forall o l name id landUse,
        object = Some o -> layer = Some l -> layerId l = "aoi" ->
        aoiDescribed o name id landUse ->
        exists tip,
          getTooltip object layer = Some tip
          /\ Tooltip.html tip =
               "<b>" +:+ name +:+ "</b><br/>ID = " +:+ templateValue id
                 +:+ "<br/>" +:+ landUse)
  /\ (forall o l,
        object = Some o -> layer = Some l -> layerId l = "aoi" ->
        (~ exists name id landUse, aoiDescribed o name id landUse) ->
        getTooltip object layer = None)
  /\ (forall o l,
        object = Some o -> layer = Some l ->
        layerId l <> "bridge-status" -> layerId l <> "bridge-status-label" ->
        layerId l <> "aoi" ->
        getTooltip object layer = None).
Proof.
  split; [|split; [|split; [|split]]].
  - intros [->| ->]; [reflexivity | now destruct object].
  - intros o l -> -> Hid. unfold getTooltip.
    assert (String.eqb (layerId l) "bridge-status"
            || String.eqb (layerId l) "bridge-status-label" = true) as ->
      by (rewrite orb_true_iff, !String.eqb_eq; exact Hid).
    eexists. split; [reflexivity|]. intros b ->. apply bridgeTooltip_html.
  - intros o l name id landUse -> -> Hid Hdescribed. unfold getTooltip.
    rewrite Hid. cbn [String.eqb Ascii.eqb Bool.eqb orb].
    now apply aoiTooltip_described.
  - intros o l -> -> Hid Hnot. unfold getTooltip.
    rewrite Hid. cbn [String.eqb Ascii.eqb Bool.eqb orb].
    now apply aoiTooltip_otherwise.
  - intros o l -> -> Hmarkers Hlabels Haoi. unfold getTooltip.
    apply String.eqb_neq in Hmarkers, Hlabels, Haoi.
    now rewrite Hmarkers, Hlabels, Haoi.
Qed.

(** ** Purity of a render *)

Lemma renderLog_console (curZoom : number) (agentList : list Agent.Agent) :
  Forall (fun ev => isMutation ev = false) (renderLog curZoom agentList).
Proof.
  unfold renderLog. destruct (Number.gt curZoom 10%float); [|constructor].
  apply List.Forall_forall. intros ev Hin.
  apply in_concat in Hin. destruct Hin as [log [Hlog Hin]].
  apply in_map_iff in Hlog. destruct Hlog as [a [<- _]].
  unfold iconLog in Hin.
  destruct (snd (selectAvatar (Agent.profile a) "/icon/agent.png")); cbn in Hin.
  - destruct Hin.
  - destruct Hin as [<-|[]]. reflexivity.
Qed.

(** C9. Two renders whose stores agree on the agents, the bridge overlays,
    the heatmap key and the map centre, and whose zoom and hover state are
    equal, both succeed with the same result, layers included, and log the
    same events, whatever had been logged before; and a render logs no event
    that writes to the store or to the zoom and hover state. *)
Theorem render_is_pure (store1 store2 : Store.Store) (curZoom1 curZoom2 : number)
  (hovering1 hovering2 : bool) (events1 events2 : list Event) :
  Store.agents store1 = Store.agents store2 ->
  Store.bridgeOverlays store1 = Store.bridgeOverlays store2 ->
  Store.heatmapKeyInStatus store1 = Store.heatmapKeyInStatus store2 ->
  Store.mapCenter store1 = Store.mapCenter store2 ->
  curZoom1 = curZoom2 ->
  hovering1 = hovering2 ->
  exists logged r,
    Deck store1 curZoom1 hovering1 events1 = (events1 ++ logged, Ok r)
    /\ Deck store2 curZoom2 hovering2 events2 = (events2 ++ logged, Ok r)
    /\ Forall (fun ev => isMutation ev = false) logged.
Proof.
  intros Hagents Hbridges Hkey Hcenter <- <-.
  exists (renderLog curZoom1 (map snd (Store.agents store1))),
         (rendered store1 curZoom1 hovering1).
  split; [apply Deck_run|]. split; [|apply renderLog_console].
  rewrite Deck_run. unfold rendered.
  now rewrite Hagents, Hbridges, Hkey, Hcenter.
Qed.

(** ** Bridge markers *)

Lemma radius_of_priority (b : BridgeOverlay.BridgeOverlay) :
  (isCritical (BridgeOverlay.priority b) -> bridgeRadius b = 180%float)
  /\ (~ isCritical (BridgeOverlay.priority b) -> bridgeRadius b = 140%float).
Proof.
  unfold bridgeRadius.
  pose proof (critical_test (BridgeOverlay.priority b)) as Hcritical.
  destruct (strictEq (option_map toLowerCase (BridgeOverlay.priority b)) "critical");
    split; intros H; try reflexivity; exfalso; intuition congruence.
Qed.

Lemma fill_in_progress (b : BridgeOverlay.BridgeOverlay) :
  mentionsProgress (BridgeOverlay.work_order_status b) ->
  bridgeFillColor b = BRIDGE_COLORS.inProgress.
Proof.
  intros H. apply progress_test in H.
  unfold bridgeFillColor, bridgeStatusColor. cbv zeta. now rewrite H.
Qed.

(** C10. For every overlay entry with both coordinates the render succeeds
    and ends with the marker layer and the label layer, which both hold the
    entry; its marker radius is 180 when its priority lowercased is
    "critical" and 140 otherwise, whatever its work-order status, so that a
    critical bridge in progress has the in-progress colour and the radius 180;
    and its label is its name, or its bridge id when it has no name. *)
Theorem bridge_marker_radius_and_label (store : Store.Store) (curZoom : number)
  (hovering : bool) (events : list Event) (b : BridgeOverlay.BridgeOverlay) :
  In b (Store.bridgeOverlays store ?? []) ->
  coordinateComplete b ->
  exists events' r others markers labels,
    Deck store curZoom hovering events = (events', Ok r)
    /\ Rendered.layers r = others ++ [BridgeMarkers markers; BridgeLabels labels]
    /\ In b (ScatterplotLayer.data markers)
    /\ In b (TextLayer.data labels)
    /\ (isCritical (BridgeOverlay.priority b) ->
         ScatterplotLayer.getRadius markers b = 180%float)
    /\ (~ isCritical (BridgeOverlay.priority b) ->
         ScatterplotLayer.getRadius markers b = 140%float)
    /\ (isCritical (BridgeOverlay.priority b) ->
         mentionsProgress (BridgeOverlay.work_order_status b) ->
         ScatterplotLayer.getRadius markers b = 180%float
         /\ ScatterplotLayer.getFillColor markers b = BRIDGE_COLORS.inProgress)
    /\ TextLayer.getText labels b = bridgeHeader b.
Proof.
  intros Hin Hcomplete.
  assert (In b (List.filter hasCoordinates (Store.bridgeOverlays store ?? []))) as Hb
    by (apply filter_In; split; [exact Hin | now apply hasCoordinates_complete]).
  assert ((0 <? length (List.filter hasCoordinates (Store.bridgeOverlays store ?? [])))%nat
          = true) as Hsome
    by (apply some_complete; now exists b).
  eexists _, _, _, _, _. split; [apply Deck_run|].
  unfold rendered, Rendered.layers, withBridges. rewrite Hsome.
  split; [reflexivity|]. cbn.
  pose proof (radius_of_priority b) as [Hcritical Hother].
  repeat apply conj; try assumption.
  - intros Hc Hp. split; [now apply Hcritical | now apply fill_in_progress].
  - reflexivity.
Qed.

End Properties.

(** * Further properties of the component *)

Section FurtherProperties.

Context {rt : Runtime}.

(** ** The layer list as a whole *)

Lemma existsb_filter {A : Type} (f : A -> bool) (l : list A) :
  existsb f l = (0 <? length (List.filter f l))%nat.
Proof.
  induction l as [|x l IH]; [reflexivity|]. cbn [existsb List.filter].
  destruct (f x); [reflexivity | exact IH].
Qed.

Lemma rendered_layer_order (store : Store.Store) (curZoom : number) (hovering : bool) :
  map layerId (Rendered.layers (rendered store curZoom hovering)) =
    layerOrder (Store.heatmapKeyInStatus store) curZoom (Store.bridgeOverlays store ?? []).
Proof.
  rewrite rendered_layer_ids. unfold layerOrder. now rewrite existsb_filter.
Qed.

(** The layers of a render, one by one. *)
Lemma rendered_layers_cases (store : Store.Store) (curZoom : number) (hovering : bool)
  (layer : Layer) :
  let agentList := map snd (Store.agents store) in
  let bridgePoints := List.filter hasCoordinates (Store.bridgeOverlays store ?? []) in
  In layer (Rendered.layers (rendered store curZoom hovering)) ->
  (exists key, layer = heatmapLayer key agentList)
  \/ layer = iconLayer (map iconEntry agentList)
  \/ layer = textLayer agentList
  \/ layer = pointLayer agentList
  \/ layer = bridgeLayer bridgePoints
  \/ layer = bridgeLabelLayer bridgePoints.
Proof.
  cbv zeta. unfold rendered, Rendered.layers, withBridges, withHeatmap, agentPart.
  destruct (0 <? _)%nat; destruct (Store.heatmapKeyInStatus store) as [key|];
    destruct (Number.gt curZoom 10%float);
    rewrite ?in_app_iff; cbn [In]; intros H;
    repeat match type of H with
           | _ \/ _ => destruct H as [H|H]
           | False => destruct H
           end; subst layer; eauto 8.
Qed.

(** X1. The layers of a render are drawn in a fixed order: the heatmap when a
    key is selected, then the icon and text layers or else the point layer,
    then the bridge markers and labels when some overlay has both
    coordinates. Their ids are pairwise distinct, there are between one and
    five of them, and none is the 'aoi' layer. *)
Theorem render_layer_order (store : Store.Store) (curZoom : number)
  (hovering : bool) (events : list Event) :
  let ids := layerOrder (Store.heatmapKeyInStatus store) curZoom
               (Store.bridgeOverlays store ?? []) in
  exists events' r,
    Deck store curZoom hovering events = (events', Ok r)
    /\ map layerId (Rendered.layers r) = ids
    /\ NoDup ids
    /\ (1 <= length (Rendered.layers r) <= 5)%nat
    /\ ~ In "aoi" ids.
Proof.
  cbv zeta. eexists _, _. split; [apply Deck_run|].
  split; [apply rendered_layer_order|].
  rewrite <- (length_map layerId), rendered_layer_order. unfold layerOrder.
  destruct (Store.heatmapKeyInStatus store); destruct (Number.gt curZoom 10%float);
    destruct (existsb hasCoordinates (Store.bridgeOverlays store ?? []));
    (split; [|split; [cbn; lia | cbn; intuition congruence]]);
    cbn; repeat (apply NoDup_cons_2; [cbn; rewrite ?list_elem_of_In; cbn; intuition congruence|]);
    apply NoDup_nil_2.
Qed.

(** ** Labels and icons *)

Lemma textData_in (agentList : list Agent.Agent) (d : TextDatum.TextDatum) :
  In d (textData agentList) <->
  exists a, In a agentList /\ Agent.name a <> "" /\ d = textEntry a.
Proof.
  rewrite textData_filter, in_map_iff. split.
  - intros [a [<- Hin]]. apply filter_In in Hin. destruct Hin as [Hin Hname].
    exists a. repeat split; [exact Hin|]. unfold hasName in Hname.
    intros Hempty. rewrite Hempty in Hname. discriminate Hname.
  - intros [a [Hin [Hname ->]]]. exists a. split; [reflexivity|].
    apply filter_In. split; [exact Hin|]. unfold hasName.
    now destruct (String.eqb_spec (Agent.name a) "").
Qed.

(** X2. Above zoom 10 every entry of the text layer carries a non-empty
    text and sits on an icon: the icon layer has an entry of the same id that is
    drawn at the same position. *)
Theorem labels_sit_on_icons (store : Store.Store) (curZoom : number)
  (hovering : bool) (events : list Event) :
  Number.gt curZoom 10%float = true ->
  exists events' r icons names,
    Deck store curZoom hovering events = (events', Ok r)
    /\ agentLayersOf r = [Icons icons; Names names]
    /\ forall d, In d (TextLayer.data names) ->
         TextLayer.getText names d <> ""
         /\ exists i,
              In i (IconLayer.data icons)
              /\ IconDatum.id i = TextDatum.id d
              /\ IconLayer.getPosition icons i = TextLayer.getPosition names d.
Proof.
  intros Hzoom. eexists _, _, _, _. split; [apply Deck_run|].
  rewrite agentLayersOf_rendered. unfold agentPart. rewrite Hzoom.
  split; [reflexivity|]. cbn. intros d Hd.
  apply textData_in in Hd. destruct Hd as [a [Hin [Hname ->]]].
  split; [exact Hname|]. exists (iconEntry a). split; [now apply in_map|].
  split; reflexivity.
Qed.

(** X3. The text layer never has more entries than there are agents, and it
    has one per agent exactly when no agent has an empty name. *)
Theorem text_entries_bounded (agentList : list Agent.Agent) :
  (length (textData agentList) <= length agentList)%nat
  /\ (length (textData agentList) = length agentList
       <-> Forall (fun a => Agent.name a <> "") agentList).
Proof.
  rewrite textData_filter, length_map.
  induction agentList as [|a rest [IHle IHeq]]; cbn [List.filter length].
  - split; [lia|]. split; [constructor | reflexivity].
  - assert (hasName a = true <-> Agent.name a <> "") as Hnamed.
    { unfold hasName. destruct (String.eqb_spec (Agent.name a) ""); cbn; split;
        congruence. }
    destruct (hasName a); cbn [length].
    + split; [lia|]. split.
      * intros H. constructor; [now apply Hnamed|]. apply IHeq. lia.
      * intros H. inversion H; subst. f_equal. now apply IHeq.
    + split; [lia|]. split; [lia|]. intros H. inversion H as [|? ? Hname _]; subst.
      apply Hnamed in Hname. discriminate Hname.
Qed.

(** ** The icon of an agent *)

Lemma selectAvatar_object (fields : gmap string PropValue) (avatarUrl : string) :
  snd (selectAvatar (ProfileObject fields) avatarUrl) = Ok tt.
Proof.
  unfold selectAvatar, bind, liftResult, getProperty, ret, put.
  destruct (isString (fields !! "gender") "male"),
           (isString (fields !! "gender") "female"),
           (asNumber (fields !! "age")) as [age|];
    repeat match goal with
           | |- context [if ?b then _ else _] => destruct b
           end; reflexivity.
Qed.

Lemma selectionThrows_null (a : Agent.Agent) (e : JsError) :
  selectionThrows a e <-> nullProfile a = true /\ e = genderReadError.
Proof.
  unfold selectionThrows, nullProfile.
  destruct (Agent.profile a) as [| |fields].
  - cbn. split; [discriminate | intros [H _]; discriminate H].
  - cbn. unfold genderReadError. split.
    + intros H. injection H as <-. now split.
    + now intros [_ ->].
  - rewrite selectAvatar_object. split; [discriminate | intros [H _]; discriminate H].
Qed.

Lemma iconLog_null (a : Agent.Agent) :
  iconLog a = if nullProfile a then [ConsoleError genderReadError] else [].
Proof.
  unfold iconLog, nullProfile. destruct (Agent.profile a) as [| |fields];
    [reflexivity | reflexivity |]. now rewrite selectAvatar_object.
Qed.

Lemma iconLogs_null (agentList : list Agent.Agent) :
  concat (map iconLog agentList) =
    map (fun _ => ConsoleError genderReadError) (List.filter nullProfile agentList).
Proof.
  induction agentList as [|a rest IH]; [reflexivity|].
  cbn [map concat List.filter]. rewrite iconLog_null, IH.
  now destruct (nullProfile a).
Qed.

(** X4. The icon of an entry is always one of the seven icons of the
    component, and it is other than the default one only for an agent whose
    profile has the gender "male" or "female", spelled so, and a numeric
    age. *)
Theorem icon_is_a_known_icon (a : Agent.Agent) (events : list Event) :
  exists events' d,
    iconDatum a events = (events', Ok d)
    /\ In (IconDatum.avatarUrl d) knownIcons
    /\ (IconDatum.avatarUrl d <> "/icon/agent.png" ->
         (hasGender a "male" \/ hasGender a "female") /\ exists age, hasAge a age).
Proof.
  eexists _, _. split; [apply iconDatum_run|].
  unfold iconEntry, IconDatum.avatarUrl, hasGender, hasAge, knownIcons.
  destruct (Agent.profile a) as [| |fields]; [cbn; tauto..|].
  unfold selectAvatar, bind, liftResult, getProperty, ret, put.
  destruct (fields !! "gender") as [[gender|n]|] eqn:Hgender;
    destruct (fields !! "age") as [[s|age]|] eqn:Hage;
    cbn [isString asNumber fst]; try (cbn; tauto);
    try (destruct (String.eqb gender "male"), (String.eqb gender "female"); cbn; tauto).
  destruct (String.eqb_spec gender "male") as [->|Hmale];
    [|destruct (String.eqb_spec gender "female") as [->|Hfemale]];
    repeat match goal with
           | |- context [if ?b then _ else _] => destruct b
           end; cbn [fst In];
    (split;
     [ tauto
     | intros Hicon;
       first
         [ now destruct Hicon
         | split;
           [ first [ left; exists fields; now split | right; exists fields; now split ]
           | exists age, fields; now split ] ] ]).
Qed.

(** X5. The icon selection throws for an agent whose profile is null, on the
    read of its gender, and for no other agent. So a render above zoom 10
    logs one such error per agent of null profile and nothing else, and a
    render at or below zoom 10, which builds no icon, logs nothing. *)
Theorem render_logs_null_profiles (store : Store.Store) (curZoom : number)
  (hovering : bool) (events : list Event) :
  let agentList := map snd (Store.agents store) in
  (forall a e, selectionThrows a e <-> nullProfile a = true /\ e = genderReadError)
  /\ exists r,
       Deck store curZoom hovering events =
         (events ++ (if Number.gt curZoom 10%float
                     then map (fun _ => ConsoleError genderReadError)
                            (List.filter nullProfile agentList)
                     else []),
          Ok r).
Proof.
  cbv zeta. split; [apply selectionThrows_null|].
  eexists. rewrite Deck_run. unfold renderLog.
  now rewrite iconLogs_null.
Qed.

(** X6. The icon depends on the gender and the age of the profile only:
    setting or deleting any other field of the profile changes neither the
    icon nor the outcome of the selection. *)
Theorem icon_ignores_other_fields (fields : gmap string PropValue) (key : string)
  (value : PropValue) (avatarUrl : string) :
  key <> "gender" -> key <> "age" ->
  selectAvatar (ProfileObject (<[key := value]> fields)) avatarUrl =
    selectAvatar (ProfileObject fields) avatarUrl
  /\ selectAvatar (ProfileObject (delete key fields)) avatarUrl =
       selectAvatar (ProfileObject fields) avatarUrl.
Proof.
  intros Hgender Hage.
  unfold selectAvatar, bind, liftResult, getProperty.
  rewrite !lookup_insert_ne, !lookup_delete_ne by assumption.
  split; reflexivity.
Qed.

(** ** Clicks and tooltips on what a render draws *)

Lemma onClick_left (info : PickingInfo.PickingInfo) (event : ClickEvent.ClickEvent)
  (log : list Event) (layer : Layer) (object : Datum) :
  ClickEvent.leftButton event = true ->
  PickingInfo.layer info = Some layer ->
  PickingInfo.object info = Some object ->
  onClick info event log =
    (log ++ ConsoleLog info event
         :: (if isAgentLayer layer then [SetClickedAgentID (objectId object)] else []),
     Ok tt).
Proof.
  intros Hleft Hlayer Hobject.
  unfold onClick, bind, emit, modify, ret. rewrite Hleft, Hlayer, Hobject.
  fold (isAgentLayer layer). destruct (isAgentLayer layer); [|reflexivity].
  now rewrite <- app_assoc.
Qed.

(** X7. Whatever the click, the handler logs it first and then calls
    [setClickedAgentID] at most once, and only for a left click that picked an
    object of a layer of id 'icon', 'point' or 'text', with the id of that
    object. It throws only for a left click on such a layer that carries no
    object, and then it has called nothing. *)
Theorem onClick_selects_only_agents (info : PickingInfo.PickingInfo)
  (event : ClickEvent.ClickEvent) (events : list Event) :
  exists emitted result,
    onClick info event events = (events ++ ConsoleLog info event :: emitted, result)
    /\ (length emitted <= 1)%nat
    /\ (forall ev, In ev emitted ->
          exists layer object,
            ev = SetClickedAgentID (objectId object)
            /\ ClickEvent.leftButton event = true
            /\ PickingInfo.layer info = Some layer
            /\ isAgentLayer layer = true
            /\ PickingInfo.object info = Some object)
    /\ (forall e, result = Throw e ->
          emitted = []
          /\ ClickEvent.leftButton event = true
          /\ PickingInfo.object info = None
          /\ exists layer, PickingInfo.layer info = Some layer /\ isAgentLayer layer = true).
Proof.
  unfold onClick, bind, emit, modify, ret, throw.
  destruct (ClickEvent.leftButton event) eqn:Hleft.
  - destruct (PickingInfo.layer info) as [layer|] eqn:Hlayer.
    + fold (isAgentLayer layer). destruct (isAgentLayer layer) eqn:Hagent.
      * destruct (PickingInfo.object info) as [object|] eqn:Hobject.
        -- exists [SetClickedAgentID (objectId object)], (Ok tt).
           rewrite <- app_assoc. split; [reflexivity|]. split; [cbn; lia|].
           split; [|discriminate].
           intros ev [<-|[]]. exists layer, object. now repeat split.
        -- eexists [], _. split; [reflexivity|]. split; [cbn; lia|].
           split; [intros ev []|]. intros e _. repeat split. now exists layer.
      * exists [], (Ok tt). split; [reflexivity|]. split; [cbn; lia|].
        split; [intros ev [] | discriminate].
    + exists [], (Ok tt). split; [reflexivity|]. split; [cbn; lia|].
      split; [intros ev [] | discriminate].
  - exists [], (Ok tt). split; [now destruct (PickingInfo.coordinate info)|].
    split; [cbn; lia|]. split; [intros ev [] | discriminate].
Qed.

(** X8. A left click on an entry of a layer a render has drawn selects an
    agent of the store when the layer is the icon, the text or the point
    layer: the id handed to [setClickedAgentID] is the id of that agent. On an
    entry of the heatmap or of a bridge layer it selects nothing. *)
Theorem click_on_rendered_entry (store : Store.Store) (curZoom : number)
  (hovering : bool) (events events' : list Event) (r : Rendered.Rendered)
  (layer : Layer) (object : Datum) (coordinate : option Position)
  (event : ClickEvent.ClickEvent) (log : list Event) :
  Deck store curZoom hovering events = (events', Ok r) ->
  In layer (Rendered.layers r) ->
  In object (objectsOf layer) ->
  ClickEvent.leftButton event = true ->
  let info := {| PickingInfo.layer := Some layer;
                 PickingInfo.object := Some object;
                 PickingInfo.coordinate := coordinate |} in
  (isAgentLayer layer = true
   /\ exists a,
        In a (map snd (Store.agents store))
        /\ onClick info event log =
             (log ++ [ConsoleLog info event;
                      SetClickedAgentID (Some (PNumber (Agent.id a)))],
              Ok tt))
  \/ (isAgentLayer layer = false
       /\ onClick info event log = (log ++ [ConsoleLog info event], Ok tt)).
Proof.
  intros Hrun Hlayer Hobject Hleft info.
  rewrite Deck_run in Hrun. injection Hrun as _ <-.
  rewrite (onClick_left info event log layer object Hleft eq_refl eq_refl).
  apply rendered_layers_cases in Hlayer. cbv zeta in Hlayer.
  destruct Hlayer as [[key ->]|[->|[->|[->|[->| ->]]]]];
    cbn [objectsOf heatmapLayer iconLayer textLayer pointLayer bridgeLayer
         bridgeLabelLayer IconLayer.data TextLayer.data ScatterplotLayer.data
         HeatmapLayer.data] in Hobject;
    try (right; split; reflexivity).
  - left. split; [reflexivity|].
    apply in_map_iff in Hobject. destruct Hobject as [d [<- Hd]].
    apply in_map_iff in Hd. destruct Hd as [a [<- Ha]].
    exists a. now split.
  - left. split; [reflexivity|].
    apply in_map_iff in Hobject. destruct Hobject as [d [<- Hd]].
    apply textData_in in Hd. destruct Hd as [a [Ha [_ ->]]].
    exists a. now split.
  - left. split; [reflexivity|].
    apply in_map_iff in Hobject. destruct Hobject as [d [<- Hd]].
    apply in_map_iff in Hd. destruct Hd as [a [<- Ha]].
    exists a. now split.
Qed.

(** X9. No layer of a render has the id 'aoi', so the area-of-interest branch
    of the tooltip is never taken for what a render draws. An entry of a
    bridge layer is an overlay of the store with both coordinates, and its
    tooltip is the block of that bridge; every other entry has no tooltip. *)
Theorem tooltip_on_rendered_entry (store : Store.Store) (curZoom : number)
  (hovering : bool) (events events' : list Event) (r : Rendered.Rendered)
  (layer : Layer) (object : Datum) :
  Deck store curZoom hovering events = (events', Ok r) ->
  In layer (Rendered.layers r) ->
  In object (objectsOf layer) ->
  layerId layer <> "aoi"
  /\ ((exists b tip,
         object = DBridge b
         /\ In b (Store.bridgeOverlays store ?? [])
         /\ coordinateComplete b
         /\ getTooltip (Some object) (Some layer) = Some tip
         /\ Tooltip.html tip =
              "<b>" +:+ bridgeHeader b +:+ "</b><br/>" +:+ bridgeStatusLine b
                +:+ "<br/>" +:+ bridgePriorityLine b +:+ "<br/>"
                +:+ bridgeActionLine b +:+ "<br/>" +:+ bridgeDueLine b)
       \/ ((forall b, object <> DBridge b)
           /\ getTooltip (Some object) (Some layer) = None)).
Proof.
  intros Hrun Hlayer Hobject.
  rewrite Deck_run in Hrun. injection Hrun as _ <-.
  apply rendered_layers_cases in Hlayer. cbv zeta in Hlayer.
  destruct Hlayer as [[key ->]|[->|[->|[->|[->| ->]]]]];
    (split; [discriminate|]);
    cbn [objectsOf heatmapLayer iconLayer textLayer pointLayer bridgeLayer
         bridgeLabelLayer IconLayer.data TextLayer.data ScatterplotLayer.data
         HeatmapLayer.data] in Hobject;
    apply in_map_iff in Hobject; destruct Hobject as [d [<- Hd]];
    try (right; split; [discriminate | reflexivity]).
  - left. apply filter_In in Hd. destruct Hd as [Hin Hcomplete].
    apply hasCoordinates_complete in Hcomplete.
    eexists d, _. repeat split; try assumption; try apply Hcomplete.
    apply bridgeTooltip_html.
  - left. apply filter_In in Hd. destruct Hd as [Hin Hcomplete].
    apply hasCoordinates_complete in Hcomplete.
    eexists d, _. repeat split; try assumption; try apply Hcomplete.
    apply bridgeTooltip_html.
Qed.

(** ** Colour and radius of a bridge marker *)

Lemma bridge_colours_differ :
  BRIDGE_COLORS.critical <> BRIDGE_COLORS.inProgress
  /\ BRIDGE_COLORS.critical <> BRIDGE_COLORS.default
  /\ BRIDGE_COLORS.inProgress <> BRIDGE_COLORS.default.
Proof.
  assert (forall (x : number) (c c' : Color),
            hd 0%float c = x -> PrimFloat.eqb (hd 0%float c') x = false ->
            PrimFloat.eqb x x = true -> c <> c') as Hdiffer.
  { intros x c c' Hc Hc' Hx Heq. subst c'. rewrite Hc in Hc'. congruence. }
  repeat split.
  - now apply (Hdiffer 220%float).
  - now apply (Hdiffer 220%float).
  - now apply (Hdiffer 255%float).
Qed.

(** X10. The colour and the radius of a bridge marker go together: a marker
    in the critical colour has the radius 180, a marker in the default colour
    has the radius 140, and a marker of radius 140 is never in the critical
    colour. Only the in-progress colour comes with either radius. *)
Theorem marker_colour_and_radius_agree (b : BridgeOverlay.BridgeOverlay) :
  (bridgeFillColor b = BRIDGE_COLORS.critical -> bridgeRadius b = 180%float)
  /\ (bridgeFillColor b = BRIDGE_COLORS.default -> bridgeRadius b = 140%float)
  /\ (bridgeRadius b = 140%float -> bridgeFillColor b <> BRIDGE_COLORS.critical).
Proof.
  destruct bridge_colours_differ as (Hcp & Hcd & Hpd).
  assert (180%float <> 140%float) as Hradius.
  { intros H. apply (f_equal (fun x => PrimFloat.eqb x 180%float)) in H.
    vm_compute in H. discriminate H. }
  unfold bridgeFillColor, bridgeStatusColor, bridgeRadius. cbv zeta.
  destruct (match option_map toLowerCase (BridgeOverlay.work_order_status b) with
            | Some s => negb (String.eqb s "") && includes "progress" s
            | None => false
            end);
    destruct (strictEq (option_map toLowerCase (BridgeOverlay.priority b)) "critical");
    repeat split; intros H; try reflexivity; try congruence.
Qed.

(** ** The callbacks and the next render *)

Lemma applyEvents_keeps_zoom (ui : UiState.UiState) (events : list Event) :
  Forall (fun ev => isZoomChange ev = false) events ->
  UiState.curZoom (applyEvents ui events) = UiState.curZoom ui.
Proof.
  unfold applyEvents. revert ui.
  induction events as [|ev rest IH]; intros ui Hnone; [reflexivity|].
  inversion Hnone as [|? ? Hev Hrest]; subst. cbn [fold_left].
  rewrite (IH _ Hrest). now destruct ev.
Qed.

(** X11. The zoom a render reads is the one of the latest view-state change,
    whatever was reported, hovered or clicked before and whatever happened
    since that is not a view-state change: the next render has the icon and
    text layers when that zoom is above 10 and the point layer otherwise, with
    no memory of the layers shown before. *)
Theorem latest_zoom_decides (store : Store.Store) (ui : UiState.UiState)
  (before after : list Event) (zoom : number) (events : list Event) :
  Forall (fun ev => isZoomChange ev = false) after ->
  let ui' := applyEvents ui (before ++ fst (onViewStateChange zoom []) ++ after) in
  UiState.curZoom ui' = zoom
  /\ exists events' r,
       Deck store (UiState.curZoom ui') (UiState.hovering ui') events = (events', Ok r)
       /\ map layerId (agentLayersOf r) =
            if Number.gt zoom 10%float then ["icon"; "text"] else ["point"].
Proof.
  intros Hafter. cbv zeta.
  assert (UiState.curZoom
            (applyEvents ui (before ++ fst (onViewStateChange zoom []) ++ after)) = zoom)
    as Hzoom.
  { unfold applyEvents. rewrite fold_left_app. cbn [onViewStateChange emit modify fst app].
    cbn [fold_left]. fold (applyEvents (applyEvent (fold_left applyEvent before ui)
                                          (SetCurZoom zoom)) after).
    now rewrite applyEvents_keeps_zoom. }
  split; [exact Hzoom|]. rewrite Hzoom.
  eexists _, _. split; [apply Deck_run|].
  rewrite agentLayersOf_rendered. unfold agentPart.
  now destruct (Number.gt zoom 10%float).
Qed.

(** X12. Hovering changes the cursor and nothing else: the render that
    follows a hover callback has the layers and the view state of the render
    before it, and its cursor is 'pointer' when the hover is over an object
    and 'grab' when it is not. *)
Theorem hover_changes_the_cursor_only (store : Store.Store) (ui : UiState.UiState)
  (info : PickingInfo.PickingInfo) (events : list Event) :
  let ui' := applyEvents ui (fst (onHover info [])) in
  exists logged r r',
    Deck store (UiState.curZoom ui) (UiState.hovering ui) events = (events ++ logged, Ok r)
    /\ Deck store (UiState.curZoom ui') (UiState.hovering ui') events
         = (events ++ logged, Ok r')
    /\ Rendered.layers r' = Rendered.layers r
    /\ Rendered.initialViewState r' = Rendered.initialViewState r
    /\ Rendered.cursor r' =
         match PickingInfo.object info with
         | Some _ => "pointer"
         | None => "grab"
         end.
Proof.
  cbv zeta. eexists _, _, _. split; [apply Deck_run|].
  split; [apply Deck_run|].
  cbn. now destruct (PickingInfo.object info).
Qed.

(** ** The heatmap and the agents *)

(** X13. With a heatmap key selected, the heatmap is drawn under the first
    agent layer, entry by entry: both have one entry per agent, in the order
    of the store, and the i-th entries of the two are at the same position. *)
Theorem heatmap_aligned_with_agents (store : Store.Store) (curZoom : number)
  (hovering : bool) (events : list Event) (key : string) :
  Store.heatmapKeyInStatus store = Some key ->
  exists events' r heat agentLayer others,
    Deck store curZoom hovering events = (events', Ok r)
    /\ Rendered.layers r = Heatmap heat :: agentLayer :: others
    /\ isAgentLayer agentLayer = true
    /\ positionsOf (Heatmap heat) = positionsOf agentLayer
    /\ positionsOf agentLayer =
         map (fun a => (Agent.lng a, Agent.lat a)) (map snd (Store.agents store)).
Proof.
  intros Hkey. rewrite Deck_run.
  unfold rendered, Rendered.layers, withBridges, withHeatmap, agentPart.
  rewrite Hkey.
  destruct (0 <? _)%nat; destruct (Number.gt curZoom 10%float);
    eexists _, _, _, _, _;
    (split; [reflexivity|]); (split; [reflexivity|]); (split; [reflexivity|]);
    cbn; rewrite !map_map; split; reflexivity.
Qed.

(** ** Bridges on the map and in the tooltip *)

(** X14. A bridge is never drawn at an undefined position: every entry of
    the marker layer and of the label layer of a render has a longitude and a
    latitude, and the two layers hold the same entries in the same order. *)
Theorem bridges_drawn_have_positions (store : Store.Store) (curZoom : number)
  (hovering : bool) (events events' : list Event) (r : Rendered.Rendered)
  (markers : ScatterplotLayer.ScatterplotLayer BridgeOverlay.BridgeOverlay MaybePosition)
  (labels : TextLayer.TextLayer BridgeOverlay.BridgeOverlay MaybePosition) :
  Deck store curZoom hovering events = (events', Ok r) ->
  In (BridgeMarkers markers) (Rendered.layers r) ->
  In (BridgeLabels labels) (Rendered.layers r) ->
  ScatterplotLayer.data markers = TextLayer.data labels
  /\ forall b, In b (ScatterplotLayer.data markers) ->
       exists lng lat,
         ScatterplotLayer.getPosition markers b = (Some lng, Some lat)
         /\ TextLayer.getPosition labels b = (Some lng, Some lat).
Proof.
  intros Hrun Hmarkers Hlabels.
  rewrite Deck_run in Hrun. injection Hrun as _ <-.
  apply rendered_layers_cases in Hmarkers, Hlabels. cbv zeta in Hmarkers, Hlabels.
  destruct Hmarkers as [[key H]|[H|[H|[H|[H|H]]]]]; try discriminate H.
  destruct Hlabels as [[key H']|[H'|[H'|[H'|[H'|H']]]]]; try discriminate H'.
  injection H as ->. injection H' as ->. cbn.
  split; [reflexivity|]. intros b Hb. apply filter_In in Hb.
  destruct Hb as [_ Hb]. unfold hasCoordinates in Hb. unfold bridgePosition.
  destruct (BridgeOverlay.lng b) as [lng|], (BridgeOverlay.lat b) as [lat|];
    try discriminate Hb. now exists lng, lat.
Qed.

Lemma truthy_sameWhenTested (x y : option string) :
  sameWhenTested x y ->
  truthy x = truthy y /\ (truthy x = true -> x = y).
Proof.
  intros [->|[[-> ->]|[-> ->]]]; cbn; split; congruence.
Qed.

(** X15. The tooltip of a bridge tests its work-order status, its priority
    and its due date for truthiness, so an empty string there reads as a
    missing value: two bridges that differ only in that have the same
    tooltip. *)
Theorem tooltip_reads_empty_as_missing (b b' : BridgeOverlay.BridgeOverlay) :
  BridgeOverlay.bridge_id b = BridgeOverlay.bridge_id b' ->
  BridgeOverlay.name b = BridgeOverlay.name b' ->
  BridgeOverlay.status b = BridgeOverlay.status b' ->
  BridgeOverlay.action b = BridgeOverlay.action b' ->
  BridgeOverlay.days_overdue b = BridgeOverlay.days_overdue b' ->
  sameWhenTested (BridgeOverlay.work_order_status b) (BridgeOverlay.work_order_status b') ->
  sameWhenTested (BridgeOverlay.priority b) (BridgeOverlay.priority b') ->
  sameWhenTested (BridgeOverlay.due_date b) (BridgeOverlay.due_date b') ->
  bridgeTooltip (DBridge b) = bridgeTooltip (DBridge b').
Proof.
  intros Hid Hname Hstatus Haction Hdays Hwork Hpriority Hdue.
  apply truthy_sameWhenTested in Hwork, Hpriority, Hdue.
  destruct Hwork as [Hwork Hwork'], Hpriority as [Hpriority Hpriority'],
    Hdue as [Hdue Hdue'].
  unfold bridgeTooltip, fromBridge.
  rewrite Hid, Hname, Hstatus, Haction, Hdays, <- Hwork, <- Hpriority, <- Hdue.
  destruct (truthy (BridgeOverlay.work_order_status b));
    [rewrite <- (Hwork' eq_refl)|];
    (destruct (truthy (BridgeOverlay.priority b));
     [rewrite <- (Hpriority' eq_refl)|]);
    (destruct (truthy (BridgeOverlay.due_date b));
     [rewrite <- (Hdue' eq_refl)|]);
    reflexivity.
Qed.

End FurtherProperties.

(** * The properties on the sample data *)

#[local] Existing Instance Reference.runtime.

Example sample_render_zoomed_in :
  exists r,
    Deck Sample.store 10.5%float false [] =
      ([ConsoleError (TypeError "Cannot read properties of null (reading 'gender')")],
       Ok r)
    /\ map layerId (Rendered.layers r) =
         ["heatmap"; "icon"; "text"; "bridge-status"; "bridge-status-label"].
Proof.
  eexists. split; [apply Deck_run | reflexivity].
Qed.

Example sample_render_zoomed_out :
  exists r,
    Deck Sample.store 8%float false [] = ([], Ok r)
    /\ map layerId (Rendered.layers r) =
         ["heatmap"; "point"; "bridge-status"; "bridge-status-label"].
Proof.
  eexists. split; [apply Deck_run | reflexivity].
Qed.

Example sample_icons :
  mapM iconDatum [Sample.tom; Sample.nameless; Sample.eve] [] =
    ([ConsoleError (TypeError "Cannot read properties of null (reading 'gender')")],
     Ok [ {| IconDatum.id := 1%float;
             IconDatum.coordinate := (116.5, 39.75)%float;
             IconDatum.avatarUrl := "/icon/boy1.png" |};
          {| IconDatum.id := 2%float;
             IconDatum.coordinate := (116.5, 39.75)%float;
             IconDatum.avatarUrl := "/icon/girl2.png" |};
          {| IconDatum.id := 3%float;
             IconDatum.coordinate := (116.5, 39.75)%float;
             IconDatum.avatarUrl := "/icon/agent.png" |} ]).
Proof. vm_compute. reflexivity. Qed.

Example sample_names :
  map TextDatum.text (textData [Sample.tom; Sample.nameless; Sample.eve]) = ["Tom"; "Eve"].
Proof. reflexivity. Qed.

Example sample_nan_age_is_senior :
  fst (selectAvatar
         (ProfileObject {[ "gender" := PString "male"; "age" := PNumber nan ]})
         "/icon/agent.png") = "/icon/boy3.png".
Proof. vm_compute. reflexivity. Qed.

Lemma agent_layers_switch_witness :
  rendersIconsAndNames Sample.store 10.5%float false []
  /\ rendersPoints Sample.store 10%float false []
  /\ rendersPoints Sample.store 9.5%float false [].
Proof.
  pose proof (agent_layers_switch_above_zoom_10 Sample.store 10.5%float false [])
    as [Habove _].
  pose proof (agent_layers_switch_above_zoom_10 Sample.store 10%float false [])
    as [_ [Hat _]].
  pose proof (agent_layers_switch_above_zoom_10 Sample.store 9.5%float false [])
    as [_ [_ Hbelow]].
  split; [|split].
  - apply Habove. reflexivity.
  - apply Hat. reflexivity.
  - apply Hbelow. reflexivity.
Defined.

(** At zoom 10, which is at the threshold, the render has the point layer and
    not the icon and text layers. *)
Lemma zoom_10_renders_points :
  Number.ge 10%float 10%float = true
  /\ ~ rendersIconsAndNames Sample.store 10%float false []
  /\ rendersPoints Sample.store 10%float false [].
Proof.
  split; [reflexivity|]. split.
  - unfold rendersIconsAndNames. cbv zeta.
    intros (events' & r & icons & names & Hrun & Hlayers & _).
    rewrite Deck_run in Hrun. injection Hrun as _ <-.
    rewrite agentLayersOf_rendered in Hlayers. unfold agentPart in Hlayers.
    change (Number.gt 10%float 10%float) with false in Hlayers.
    discriminate Hlayers.
  - apply rendersPoints_otherwise. reflexivity.
Qed.


Lemma mentions_in_progress : mentionsProgress (Some "In Progress").
Proof.
  exists "In Progress". split; [reflexivity|]. exists "in ", "". reflexivity.
Defined.

Lemma critical_any_case : isCritical (Some "Critical").
Proof.
  exists "Critical". split; reflexivity.
Defined.

Lemma bridgeStatusColor_precedence_witness :
  bridgeStatusColor (Some "Critical") (Some "In Progress") = BRIDGE_COLORS.inProgress
  /\ bridgeStatusColor (Some "Critical") None = BRIDGE_COLORS.critical
  /\ bridgeStatusColor (Some "low") (Some "open") = BRIDGE_COLORS.default.
Proof.
  pose proof (bridgeStatusColor_precedence (Some "Critical") (Some "In Progress"))
    as [Hprogress _].
  pose proof (bridgeStatusColor_precedence (Some "Critical") None)
    as [_ [Hcritical _]].
  pose proof (bridgeStatusColor_precedence (Some "low") (Some "open"))
    as [_ [_ Hdefault]].
  split; [|split].
  - apply Hprogress. exact mentions_in_progress.
  - apply Hcritical.
    + intros [s [Hs _]]. discriminate Hs.
    + exact critical_any_case.
  - apply Hdefault.
    + intros [s [Hs H]]. injection Hs as <-.
      apply includes_contains in H. vm_compute in H. discriminate H.
    + intros [s [Hs H]]. injection Hs as <-. vm_compute in H. discriminate H.
Defined.

Lemma tom_is_a_boy :
  hasGender Sample.tom "male" /\ hasAge Sample.tom 10%float.
Proof.
  split; eexists; (split; [reflexivity | vm_compute; reflexivity]).
Defined.

Lemma nameless_is_a_woman :
  hasGender Sample.nameless "female" /\ hasAge Sample.nameless 40%float.
Proof.
  split; eexists; (split; [reflexivity | vm_compute; reflexivity]).
Defined.

Lemma icon_selection_witness :
  (exists events' d,
     iconDatum Sample.tom [] = (events', Ok d)
     /\ IconDatum.avatarUrl d = "/icon/boy1.png")
  /\ (exists events' d,
        iconDatum Sample.nameless [] = (events', Ok d)
        /\ IconDatum.avatarUrl d = "/icon/girl2.png").
Proof.
  split.
  - destruct (icon_selection_by_profile Sample.tom [])
      as (events' & d & Hrun & _ & _ & Hboy & _).
    exists events', d. split; [exact Hrun|].
    apply Hboy; apply tom_is_a_boy.
  - destruct (icon_selection_by_profile Sample.nameless [])
      as (events' & d & Hrun & _ & _ & _ & Hgirl & _).
    exists events', d. split; [exact Hrun|].
    apply Hgirl; apply nameless_is_a_woman.
Defined.

Lemma north_is_complete :
  In Sample.north (Store.bridgeOverlays Sample.store ?? [])
  /\ coordinateComplete Sample.north.
Proof.
  split; [right; left; reflexivity | split; discriminate].
Defined.

Lemma bridge_layers_witness :
  exists events' r,
    Deck Sample.store 10.5%float false [] = (events', Ok r)
    /\ hasLayer "bridge-status" (Rendered.layers r)
    /\ hasLayer "bridge-status-label" (Rendered.layers r)
    /\ exists others markers labels,
         Rendered.layers r = others ++ [BridgeMarkers markers; BridgeLabels labels]
         /\ ScatterplotLayer.data markers = [Sample.north]
         /\ TextLayer.data labels = [Sample.north].
Proof.
  destruct (bridge_layers_iff_coordinates Sample.store 10.5%float false [])
    as (events' & r & Hrun & Hmarkers & Hlabels & Hlast & _).
  assert (exists b, In b (Store.bridgeOverlays Sample.store ?? [])
                    /\ coordinateComplete b) as Hsome
    by (exists Sample.north; exact north_is_complete).
  exists events', r. split; [exact Hrun|].
  split; [now apply Hmarkers|]. split; [now apply Hlabels|].
  destruct (Hlast Hsome) as (others & markers & labels & Hlayers & _ & _ & Hm & Hl).
  exists others, markers, labels. now repeat split.
Defined.



Lemma eve_throws :
  selectionThrows Sample.eve
    (TypeError "Cannot read properties of null (reading 'gender')").
Proof. reflexivity. Defined.

Lemma profile_failure_witness :
  iconDatum Sample.eve [] =
    ([ConsoleError (TypeError "Cannot read properties of null (reading 'gender')")],
     Ok (defaultIconEntry Sample.eve))
  /\ exists logged r icons,
       Deck Sample.store 10.5%float false [] = ([] ++ logged, Ok r)
       /\ In (ConsoleError (TypeError "Cannot read properties of null (reading 'gender')"))
            logged
       /\ In (Icons icons) (Rendered.layers r)
       /\ In (defaultIconEntry Sample.eve) (IconLayer.data icons).
Proof.
  destruct (profile_failure_is_contained Sample.store 10.5%float false [])
    as (Hcaught & _ & Hrender).
  split.
  - apply (Hcaught Sample.eve _ []). exact eve_throws.
  - apply Hrender.
    + right; right; left; reflexivity.
    + reflexivity.
    + exact eve_throws.
Defined.

Lemma onClick_witness :
  let agents := [Sample.tom; Sample.nameless; Sample.eve] in
  let on (layer : option Layer) (object : option Datum) :=
    {| PickingInfo.layer := layer;
       PickingInfo.object := object;
       PickingInfo.coordinate := Some (116.5, 39.75)%float |} in
  let onIcon := on (Some (iconLayer (map iconEntry agents))) (Some Scene.tomIcon) in
  let onName := on (Some (textLayer agents)) (Some Scene.tomName) in
  let onPoint := on (Some (pointLayer agents)) (Some Scene.tomPoint) in
  let onNothing := on None None in
  onClick onIcon Sample.leftClick [] =
    ([ConsoleLog onIcon Sample.leftClick; SetClickedAgentID (Some (PNumber 1%float))],
     Ok tt)
  /\ onClick onName Sample.leftClick [] =
       ([ConsoleLog onName Sample.leftClick; SetClickedAgentID (Some (PNumber 1%float))],
        Ok tt)
  /\ onClick onPoint Sample.leftClick [] =
       ([ConsoleLog onPoint Sample.leftClick; SetClickedAgentID (Some (PNumber 1%float))],
        Ok tt)
  /\ onClick onNothing Sample.leftClick [] =
       ([ConsoleLog onNothing Sample.leftClick], Ok tt)
  /\ onClick onPoint Sample.rightClick [] =
       ([ConsoleLog onPoint Sample.rightClick], Ok tt).
Proof.
  intros agents on onIcon onName onPoint onNothing.
  pose proof (onClick_selects_agent onIcon Sample.leftClick []) as [Hicon _].
  pose proof (onClick_selects_agent onName Sample.leftClick []) as [Hname _].
  pose proof (onClick_selects_agent onPoint Sample.leftClick []) as [Hpoint _].
  pose proof (onClick_selects_agent onNothing Sample.leftClick []) as [_ [Hnothing _]].
  pose proof (onClick_selects_agent onPoint Sample.rightClick []) as [_ [_ Hright]].
  split; [|split; [|split; [|split]]].
  - apply (Hicon (iconLayer (map iconEntry agents)) Scene.tomIcon); try reflexivity.
    + left; reflexivity.
    + exact (hasId_icon _).
  - apply (Hname (textLayer agents) Scene.tomName); try reflexivity.
    + right; right; reflexivity.
    + exact (hasId_text _).
  - apply (Hpoint (pointLayer agents) Scene.tomPoint); try reflexivity.
    + right; left; reflexivity.
    + exact (hasId_point _).
  - apply Hnothing; reflexivity.
  - apply Hright; reflexivity.
Defined.

Lemma park_is_described :
  aoiDescribed (DFeature Sample.park) "Park" (PNumber 7%float)
    "公共管理与公共服务用地".
Proof.
  exists Sample.park, {| Feature.name := Some "Park";
                         Feature.land_use := Some "LAND_USE_TYPE_PUBLIC" |},
    "LAND_USE_TYPE_PUBLIC".
  repeat split; reflexivity.
Defined.

Lemma getTooltip_witness :
  getTooltip None (Some (bridgeLayer [Sample.north])) = None
  /\ (exists tip,
        getTooltip (Some (DBridge Sample.north)) (Some (bridgeLayer [Sample.north]))
          = Some tip
        /\ Tooltip.html tip =
             "<b>B-1</b><br/>work_order - In Progress<br/>Priority: Critical<br/><br/>")
  /\ (exists tip,
        getTooltip (Some (DFeature Sample.park)) (Some Sample.aoiLayer) = Some tip
        /\ Tooltip.html tip = "<b>Park</b><br/>ID = 7<br/>公共管理与公共服务用地")
  /\ getTooltip (Some (DFeature Sample.unnamedPark)) (Some Sample.aoiLayer) = None
  /\ getTooltip (Some (DPoint {| PointDatum.id := 1%float;
                                 PointDatum.position := (116.5, 39.75)%float;
                                 PointDatum.radius := 10%float;
                                 PointDatum.color := [22; 119; 255]%float |}))
       (Some (pointLayer [Sample.tom])) = None.
Proof.
  split; [|split; [|split; [|split]]].
  - apply (getTooltip_dispatch None (Some (bridgeLayer [Sample.north]))).
    left; reflexivity.
  - destruct (getTooltip_dispatch (Some (DBridge Sample.north))
                (Some (bridgeLayer [Sample.north]))) as (_ & Hbridge & _).
    destruct (Hbridge (DBridge Sample.north) (bridgeLayer [Sample.north])
                eq_refl eq_refl (or_introl eq_refl)) as (tip & Htip & Hhtml).
    exists tip. split; [exact Htip|]. exact (Hhtml Sample.north eq_refl).
  - destruct (getTooltip_dispatch (Some (DFeature Sample.park)) (Some Sample.aoiLayer))
      as (_ & _ & Haoi & _).
    exact (Haoi _ _ _ _ _ eq_refl eq_refl eq_refl park_is_described).
  - destruct (getTooltip_dispatch (Some (DFeature Sample.unnamedPark))
                (Some Sample.aoiLayer)) as (_ & _ & _ & Hnone & _).
    apply (Hnone _ _ eq_refl eq_refl eq_refl).
    intros (name & id & landUse & f & properties & land_use
            & Hf & Hp & Hname & _).
    injection Hf as <-. injection Hp as <-. discriminate Hname.
  - destruct (getTooltip_dispatch
                (Some (DPoint {| PointDatum.id := 1%float;
                                 PointDatum.position := (116.5, 39.75)%float;
                                 PointDatum.radius := 10%float;
                                 PointDatum.color := [22; 119; 255]%float |}))
                (Some (pointLayer [Sample.tom]))) as (_ & _ & _ & _ & Hother).
    apply (Hother _ _ eq_refl eq_refl); discriminate.
Defined.

(** A feature of the 'aoi' layer that has no name gets no tooltip, although
    its layer id is 'aoi'. *)
Lemma aoi_without_name_has_no_tooltip :
  layerId Sample.aoiLayer = "aoi"
  /\ getTooltip (Some (DFeature Sample.unnamedPark)) (Some Sample.aoiLayer) = None.
Proof. split; reflexivity. Qed.

Lemma render_is_pure_witness :
  exists logged r,
    Deck Sample.store 10.5%float true [] = ([] ++ logged, Ok r)
    /\ Deck Sample.store 10.5%float true [SetHovering true; PreventDefault] =
         ([SetHovering true; PreventDefault] ++ logged, Ok r)
    /\ Forall (fun ev => isMutation ev = false) logged.
Proof.
  exact (render_is_pure Sample.store Sample.store 10.5%float 10.5%float true true
           [] [SetHovering true; PreventDefault]
           eq_refl eq_refl eq_refl eq_refl eq_refl eq_refl).
Defined.

Lemma bridge_marker_witness :
  exists events' r others markers labels,
    Deck Sample.store 10.5%float false [] = (events', Ok r)
    /\ Rendered.layers r = others ++ [BridgeMarkers markers; BridgeLabels labels]
    /\ ScatterplotLayer.getRadius markers Sample.north = 180%float
    /\ ScatterplotLayer.getFillColor markers Sample.north = BRIDGE_COLORS.inProgress
    /\ TextLayer.getText labels Sample.north = "B-1".
Proof.
  destruct (bridge_marker_radius_and_label Sample.store 10.5%float false []
              Sample.north (proj1 north_is_complete) (proj2 north_is_complete))
    as (events' & r & others & markers & labels
        & Hrun & Hlayers & _ & _ & _ & _ & Hboth & Hlabel).
  exists events', r, others, markers, labels.
  destruct (Hboth critical_any_case mentions_in_progress) as [Hradius Hfill].
  now repeat split.
Defined.

(** ** The further properties on the sample data *)

Lemma labels_sit_on_icons_witness :
  exists events' r icons names,
    Deck Sample.store 10.5%float false [] = (events', Ok r)
    /\ agentLayersOf r = [Icons icons; Names names]
    /\ forall d, In d (TextLayer.data names) ->
         TextLayer.getText names d <> ""
         /\ exists i,
              In i (IconLayer.data icons)
              /\ IconDatum.id i = TextDatum.id d
              /\ IconLayer.getPosition icons i = TextLayer.getPosition names d.
Proof.
  exact (labels_sit_on_icons Sample.store 10.5%float false [] eq_refl).
Defined.

Lemma icon_ignores_other_fields_witness :
  let fields : gmap string PropValue :=
    {[ "gender" := PString "male"; "age" := PNumber 10%float ]} in
  selectAvatar (ProfileObject (<["education" := PString "college"]> fields))
    "/icon/agent.png"
    = selectAvatar (ProfileObject fields) "/icon/agent.png"
  /\ selectAvatar (ProfileObject (delete "education" fields)) "/icon/agent.png"
       = selectAvatar (ProfileObject fields) "/icon/agent.png".
Proof.
  intros fields.
  apply (icon_ignores_other_fields fields "education" (PString "college")
           "/icon/agent.png"); discriminate.
Defined.

Lemma click_on_rendered_entry_witness :
  let info := {| PickingInfo.layer :=
                   Some (pointLayer [Sample.tom; Sample.nameless; Sample.eve]);
                 PickingInfo.object := Some Scene.tomPoint;
                 PickingInfo.coordinate := None |} in
  exists a,
    In a [Sample.tom; Sample.nameless; Sample.eve]
    /\ onClick info Sample.leftClick [] =
         ([ConsoleLog info Sample.leftClick;
           SetClickedAgentID (Some (PNumber (Agent.id a)))],
          Ok tt).
Proof.
  intros info.
  destruct (click_on_rendered_entry Sample.store 8%float false [] _ _
              (pointLayer [Sample.tom; Sample.nameless; Sample.eve])
              Scene.tomPoint None Sample.leftClick []
              (Deck_run Sample.store 8%float false []))
    as [[_ Hagent]|[Hother _]].
  - right; left; reflexivity.
  - left; reflexivity.
  - reflexivity.
  - exact Hagent.
  - discriminate Hother.
Defined.

Lemma tooltip_on_rendered_entry_witness :
  exists tip,
    getTooltip (Some (DBridge Sample.north)) (Some (bridgeLayer [Sample.north])) = Some tip
    /\ Tooltip.html tip =
         "<b>B-1</b><br/>work_order - In Progress<br/>Priority: Critical<br/><br/>".
Proof.
  destruct (tooltip_on_rendered_entry Sample.store 10.5%float false [] _ _
              (bridgeLayer [Sample.north]) (DBridge Sample.north)
              (Deck_run Sample.store 10.5%float false []))
    as [_ [(b & tip & Hb & _ & _ & Htip & Hhtml)|[Hother _]]].
  - do 3 right; left; reflexivity.
  - left; reflexivity.
  - exists tip. split; [exact Htip|]. injection Hb as <-. exact Hhtml.
  - now destruct (Hother Sample.north).
Defined.

Lemma marker_colour_and_radius_witness :
  bridgeFillColor Scene.urgent = BRIDGE_COLORS.critical
  /\ bridgeRadius Scene.urgent = 180%float.
Proof.
  split; [reflexivity|].
  exact (proj1 (marker_colour_and_radius_agree Scene.urgent) eq_refl).
Defined.

Lemma latest_zoom_decides_witness :
  exists events' r,
    Deck Sample.store 8%float false [] = (events', Ok r)
    /\ map layerId (agentLayersOf r) = ["point"].
Proof.
  destruct (latest_zoom_decides Sample.store initialUi
              [SetHovering true] [SetHovering false; PreventDefault] 8%float [])
    as [_ (events' & r & Hrun & Hids)].
  - repeat constructor.
  - exists events', r. split; [exact Hrun | exact Hids].
Defined.

Lemma heatmap_aligned_with_agents_witness :
  exists events' r heat agentLayer others,
    Deck Sample.store 10.5%float false [] = (events', Ok r)
    /\ Rendered.layers r = Heatmap heat :: agentLayer :: others
    /\ isAgentLayer agentLayer = true
    /\ positionsOf (Heatmap heat) = positionsOf agentLayer
    /\ positionsOf agentLayer =
         map (fun a => (Agent.lng a, Agent.lat a)) (map snd (Store.agents Sample.store)).
Proof.
  exact (heatmap_aligned_with_agents Sample.store 10.5%float false [] "income" eq_refl).
Defined.

Lemma bridges_drawn_have_positions_witness :
  exists markers labels,
    bridgeLayer [Sample.north] = BridgeMarkers markers
    /\ bridgeLabelLayer [Sample.north] = BridgeLabels labels
    /\ ScatterplotLayer.data markers = TextLayer.data labels
    /\ forall b, In b (ScatterplotLayer.data markers) ->
         exists lng lat,
           ScatterplotLayer.getPosition markers b = (Some lng, Some lat)
           /\ TextLayer.getPosition labels b = (Some lng, Some lat).
Proof.
  eexists _, _. split; [reflexivity|]. split; [reflexivity|].
  apply (bridges_drawn_have_positions Sample.store 10.5%float false [] _ _ _ _
           (Deck_run Sample.store 10.5%float false [])).
  - do 3 right; left; reflexivity.
  - do 4 right; left; reflexivity.
Defined.

Lemma tooltip_reads_empty_as_missing_witness :
  bridgeTooltip (DBridge Scene.emptied) = bridgeTooltip (DBridge Scene.bare).
Proof.
  apply (tooltip_reads_empty_as_missing Scene.emptied Scene.bare);
    try reflexivity; try (left; reflexivity);
    right; left; split; reflexivity.
Defined.
